(** * A shallow embedding of [supracon_squid.py]

    The driver talks to a SupraCon SQUID electronics box over a serial line:
    every exchange writes a 4-byte frame and reads a 4-byte answer.  Bytes
    are modelled as [Z] values, frames as [list Z] (a Python [bytes] or
    [bytearray]), the floats the driver passes to [_map] as rationals [Q],
    and the Python exceptions as the constructors of [exn].  The driver's
    effects (the serial port, the channel dict) are threaded through a small
    state-and-exception monad. *)

From Stdlib Require Import ZArith QArith Qround Qabs List String Bool Lia Lqa Sorted.
Import ListNotations.
Open Scope Z_scope.

(** ** Python exceptions raised by the module *)

Inductive exn :=
| ValueError
| BytesWarning
| OverflowError
| ZeroDivisionError
| ConnectionError
| IndexError
| KeyError
| PortNotOpenError
| SerialException
| TimeoutError.

Inductive result (A : Type) :=
| Ok (a : A)
| Raise (e : exn).
Arguments Ok {A} a.
Arguments Raise {A} e.

Definition bytes := list Z.

Definition bytes_eqb (x y : bytes) : bool :=
  if list_eq_dec Z.eq_dec x y then true else false.

Definition is_byte (b : Z) : bool := (0 <=? b) && (b <=? 255).

(** [int.to_bytes(2, 'big', signed=False)] *)
Definition to_bytes2_unsigned (n : Z) : result bytes :=
  if (0 <=? n) && (n <? 65536) then Ok [n / 256; n mod 256] else Raise OverflowError.

(** [int.to_bytes(2, 'big', signed=True)] *)
Definition to_bytes2_signed (n : Z) : result bytes :=
  if (-32768 <=? n) && (n <? 32768) then Ok [(n mod 65536) / 256; n mod 256]
  else Raise OverflowError.

(** [int.from_bytes(x, 'big', signed=False)] *)
Definition from_bytes_big (x : bytes) : Z :=
  fold_left (fun acc b => acc * 256 + b) x 0.

(** Python's [round] on a float: to the nearest integer, ties to even. *)
Definition py_round (q : Q) : Z :=
  let f := Qfloor q in
  let d := Qminus q (inject_Z f) in
  if negb (Qle_bool (1 # 2) d) then f
  else if negb (Qle_bool d (1 # 2)) then f + 1
  else if Z.even f then f else f + 1.

(** ** Value codec: [_map] and [_unmap] (lines 13-20) *)

Definition _map (x minimum maximum : Q) : result bytes :=
  if negb (Qle_bool minimum x && Qle_bool x maximum) then Raise ValueError
  else if Qeq_bool (Qminus maximum minimum) 0 then Raise ZeroDivisionError
  else to_bytes2_unsigned
         (py_round (Qmult (Qdiv (Qminus x minimum) (Qminus maximum minimum)) (inject_Z 65535))).

Definition _unmap (x : bytes) (minimum maximum : Q) : Q :=
  Qplus (Qmult (Qdiv (inject_Z (from_bytes_big x)) (inject_Z 65536)) (Qminus maximum minimum))
        minimum.

(** ** Opcodes: [_Actions], [_DACOutput], [_FLLMode], [_Address], [_command] *)

Module _Actions.
Definition DAC_OUTPUT := 1.
Definition ADC_INPUT_1 := 2.
Definition ADC_INPUT_95 := 3.
Definition SET_FLL_MODE := 4.
Definition SWITCH_AC_FLUX := 5.
Definition SQUID_HEATER_SWITCH := 6.
Definition START_AUTOTUNE := 7.
Definition READ_NONVOLATILE_MEMORY := 8.
Definition WRITE_NONVOLATILE_MEMORY := 9.
Definition SWITCH_TEST_IN := 10.
Definition SWITCH_FEEDBACK := 11.
Definition CHANGE_INTERNAL_AC_FLUX_AMPLITUDE := 12.
Definition SET_DETECTOR_HEATER_CURRENT := 13.
End _Actions.

Inductive _DACOutput := DC_BIAS | DC_FLUX | BIAS | OFFSET | FLUX.

Definition dac_value (d : _DACOutput) : Z :=
  match d with DC_BIAS => 0 | DC_FLUX => 1 | BIAS => 2 | OFFSET => 3 | FLUX => 4 end.

Inductive _FLLMode := FLL_MODE | RESET_MODE | FAST_RESET_MODE.

Definition fll_value (f : _FLLMode) : Z :=
  match f with FLL_MODE => 0 | RESET_MODE => 1 | FAST_RESET_MODE => 2 end.

Module _Address.
Definition START_BIAS := 0.
Definition END_BIAS := 2.
Definition BIAS := 4.
Definition OFFSET := 6.
Definition FLUX := 8.
Definition MODULATION_AMPLITUDE := 10.
End _Address.

(** The [parameter] argument of [_command] is a Python int, possibly an
    [IntEnum] member: [isinstance] distinguishes the members from plain
    ints, while [==] and [in] compare their integer values. *)
Inductive param :=
| PInt (z : Z)
| PDAC (d : _DACOutput)
| PFLL (f : _FLLMode).

Definition param_value (p : param) : Z :=
  match p with PInt z => z | PDAC d => dac_value d | PFLL f => fll_value f end.

Definition is_DACOutput (p : param) : bool :=
  match p with PDAC _ => true | _ => false end.

Definition is_FLLMode (p : param) : bool :=
  match p with PFLL _ => true | _ => false end.

Definition _command (action : Z) (parameter : param) : result Z :=
  if (action =? _Actions.DAC_OUTPUT) && is_DACOutput parameter then
    Ok (Z.lor (Z.shiftl action 3) (param_value parameter))
  else if existsb (Z.eqb action)
            [_Actions.ADC_INPUT_1; _Actions.ADC_INPUT_95; _Actions.START_AUTOTUNE;
             _Actions.READ_NONVOLATILE_MEMORY; _Actions.WRITE_NONVOLATILE_MEMORY;
             _Actions.SWITCH_TEST_IN; _Actions.CHANGE_INTERNAL_AC_FLUX_AMPLITUDE] then
    Ok (Z.shiftl action 3)
  else if (action =? _Actions.SET_FLL_MODE) && is_FLLMode parameter then
    Ok (Z.lor (Z.shiftl action 3) (param_value parameter))
  else if action =? _Actions.SWITCH_AC_FLUX then
    Ok (Z.lor (Z.shiftl action 3) 1)
  else if action =? _Actions.SQUID_HEATER_SWITCH then
    Ok (Z.lor (Z.shiftl action 3) 2)
  else if (action =? _Actions.SWITCH_FEEDBACK)
          && existsb (Z.eqb (param_value parameter)) [0; 1] then
    Ok (Z.lor (Z.shiftl action 3) (param_value parameter))
  else Raise ValueError.

(** ** The device state and its monad

    [SupraConSQUID] subclasses [serial.Serial]: its state is the port's
    open flag, the [_channels] dict (an association list in insertion
    order, as a Python dict iterates), the frame last written and the log
    of port events.  The box on the other end of the line is a function
    [respond] from the frame last written to the answer it sends. *)

Record chan := mkChan { channel : Z; capabilities_code : Z }.

Inductive event :=
| EvOpen
| EvClose
| EvWrite (data : bytes)
| EvRead (data : bytes).

Record device := mkDevice {
  is_open : bool;
  _channels : list (Z * chan);
  last_req : bytes;
  events : list event }.

Definition set_open (b : bool) (d : device) : device :=
  mkDevice b (_channels d) (last_req d) (events d).
Definition set_channels (cs : list (Z * chan)) (d : device) : device :=
  mkDevice (is_open d) cs (last_req d) (events d).
Definition log (e : event) (d : device) : device :=
  mkDevice (is_open d) (_channels d) (last_req d) (events d ++ [e]).
Definition set_last_req (r : bytes) (d : device) : device :=
  mkDevice (is_open d) (_channels d) r (events d).

Definition M (A : Type) := device -> result A * device.

Definition ret {A} (a : A) : M A := fun d => (Ok a, d).
Definition raise {A} (e : exn) : M A := fun d => (Raise e, d).
Definition lift {A} (r : result A) : M A := fun d => (r, d).
Definition bind {A B} (m : M A) (k : A -> M B) : M B :=
  fun d => match m d with
           | (Ok a, d') => k a d'
           | (Raise e, d') => (Raise e, d')
           end.

Notation "x <- m ;; k" := (bind m (fun x => k))
  (at level 61, m at next level, right associativity).
Notation "m ;; k" := (bind m (fun _ => k))
  (at level 61, right associativity).

(** An exception escaping [__del__] is printed and ignored by Python. *)
Definition ignore_exn (m : M unit) : M unit :=
  fun d => match m d with
           | (Ok _, d') => (Ok tt, d')
           | (Raise _, d') => (Ok tt, d')
           end.

Fixpoint iter {A} (f : A -> M unit) (xs : list A) : M unit :=
  match xs with
  | [] => ret tt
  | x :: xs' => f x ;; iter f xs'
  end.

(** [dict.__setitem__]: replaces in place, or appends a new key. *)
Fixpoint dict_set {V} (k : Z) (v : V) (l : list (Z * V)) : list (Z * V) :=
  match l with
  | [] => [(k, v)]
  | (k', v') :: l' => if k =? k' then (k, v) :: l' else (k', v') :: dict_set k v l'
  end.

Fixpoint dict_get {V} (k : Z) (l : list (Z * V)) : option V :=
  match l with
  | [] => None
  | (k', v') :: l' => if k =? k' then Some v' else dict_get k l'
  end.

Section Driver.

Variable respond : bytes -> bytes.

(** [Serial.open] and [Serial.close] (a no-op on a closed port). *)
Definition port_open : M unit :=
  fun d => (Ok tt, log EvOpen (set_open true d)).
Definition port_close : M unit :=
  fun d => if is_open d then (Ok tt, log EvClose (set_open false d)) else (Ok tt, d).

(** [SupraConSQUID.write]; the 2 s sleep before the zero frame has no
    observable effect on the line. *)
Definition write (data : bytes) : M unit :=
  fun d => if is_open d then (Ok tt, log (EvWrite data) (set_last_req data d))
           else (Raise PortNotOpenError, d).

(** [Serial.read(n)]: the first [n] bytes of the box's answer. *)
Definition read (n : nat) : M bytes :=
  fun d => if is_open d then
             let r := firstn n (respond (last_req d)) in (Ok r, log (EvRead r) d)
           else (Raise PortNotOpenError, d).

(** ** [SupraConSQUIDChannel]: the exchange primitives (lines 99-131) *)

Definition _validate_parameters (command : Z) (data : list Z) : result unit :=
  if negb ((0 <=? command) && (command <=? 255)) then Raise ValueError
  else if negb (Nat.eqb (List.length data) 2) then Raise ValueError
  else if negb (forallb is_byte data) then Raise BytesWarning
  else Ok tt.

(** [bytearray(...)] refuses values outside [0, 255] with [ValueError]. *)
Definition bytearray (l : list Z) : result bytes :=
  if forallb is_byte l then Ok l else Raise ValueError.

Definition _communicate (ch : chan) (command : Z) (data : list Z) : M bytes :=
  lift (_validate_parameters command data) ;;
  request <- lift (bytearray (channel ch :: command :: data)) ;;
  write request ;;
  read 4.

Definition _query (ch : chan) (command : Z) (data : list Z) : M bytes :=
  lift (_validate_parameters command data) ;;
  expected_response <- lift (bytearray (channel ch :: 255 :: data)) ;;
  actual_response <- _communicate ch command data ;;
  if negb (bytes_eqb actual_response expected_response) then raise ConnectionError
  else ret (skipn 2 actual_response).

Definition _issue (ch : chan) (command : Z) (data : list Z) : M bool :=
  lift (_validate_parameters command data) ;;
  expected_response <- lift (bytearray (channel ch :: 255 :: data)) ;;
  actual_response <- _communicate ch command data ;;
  ret (bytes_eqb actual_response expected_response).

Definition _send_float (ch : chan) (command : Z) (value minimum maximum : Q) : M bool :=
  if negb (Qle_bool minimum value && Qle_bool value maximum) then raise ValueError
  else bs <- lift (_map value minimum maximum) ;; _issue ch command bs.

(** ** Channel operations (lines 166-259)

    [if not self.capabilities_code & mask: return False] *)
Definition lacks (ch : chan) (mask : Z) : bool :=
  Z.land (capabilities_code ch) mask =? 0.

Definition V_MIN : Q := -5 # 2.
Definition V_MAX : Q := 5 # 2.

Definition change_ac_flux_amplitude_by (ch : chan) (change : Z) : M bool :=
  if lacks ch 1 then ret false
  else if negb ((-32768 <=? change) && (change <? 32768)) then raise ValueError
  else if change =? 0 then ret true
  else cmd <- lift (_command _Actions.CHANGE_INTERNAL_AC_FLUX_AMPLITUDE (PInt 0)) ;;
       bs <- lift (to_bytes2_signed change) ;;
       _issue ch cmd bs.

Definition ac_flux (ch : chan) (on : bool) : M bool :=
  if lacks ch 1 then ret false
  else cmd <- lift (_command _Actions.SWITCH_AC_FLUX (PInt 0)) ;;
       _issue ch cmd [0; Z.b2z on].

Definition reset_fll (ch : chan) (on : bool) : M bool :=
  if lacks ch 1 then ret false
  else if on then
    cmd <- lift (_command _Actions.SET_FLL_MODE (PFLL RESET_MODE)) ;; _issue ch cmd [0; 0]
  else
    cmd <- lift (_command _Actions.SET_FLL_MODE (PFLL FLL_MODE)) ;; _issue ch cmd [0; 0].

Definition test_in (ch : chan) (on : bool) : M bool :=
  if lacks ch 1 then ret false
  else cmd <- lift (_command _Actions.SWITCH_TEST_IN (PInt 0)) ;;
       _issue ch cmd [0; Z.b2z on].

Definition dac_setter (which : _DACOutput) (ch : chan) (value : Q) : M bool :=
  if lacks ch 1 then ret false
  else cmd <- lift (_command _Actions.DAC_OUTPUT (PDAC which)) ;;
       _send_float ch cmd value V_MIN V_MAX.

Definition dc_bias := dac_setter DC_BIAS.
Definition bias := dac_setter BIAS.
Definition offset := dac_setter OFFSET.
Definition flux := dac_setter FLUX.

(** [all((...))]: the tuple is built, so every step runs, before [all]. *)
Definition auto_tune_squid (ch : chan) (start_bias end_bias : Q) : M bool :=
  if lacks ch 1 then ret false
  else
    r1 <- offset ch 0 ;;
    r2 <- flux ch 0 ;;
    r3 <- reset_fll ch false ;;
    r4 <- ac_flux ch false ;;
    r5 <- test_in ch false ;;
    r6 <- (cmd <- lift (_command _Actions.WRITE_NONVOLATILE_MEMORY (PInt 0)) ;;
           _issue ch cmd [0; _Address.START_BIAS]) ;;
    r7 <- (cmd <- lift (_command _Actions.WRITE_NONVOLATILE_MEMORY (PInt 0)) ;;
           _send_float ch cmd start_bias V_MIN V_MAX) ;;
    r8 <- (cmd <- lift (_command _Actions.WRITE_NONVOLATILE_MEMORY (PInt 0)) ;;
           _issue ch cmd [0; _Address.END_BIAS]) ;;
    r9 <- (cmd <- lift (_command _Actions.WRITE_NONVOLATILE_MEMORY (PInt 0)) ;;
           _send_float ch cmd end_bias V_MIN V_MAX) ;;
    r10 <- (cmd <- lift (_command _Actions.START_AUTOTUNE (PInt 0)) ;;
            _issue ch cmd [0; 0]) ;;
    ret (forallb id [r1; r2; r3; r4; r5; r6; r7; r8; r9; r10]).

Definition detector_bias (ch : chan) (current_ua : Q) : M bool :=
  if lacks ch 3 then ret false
  else cmd <- lift (_command _Actions.DAC_OUTPUT (PDAC DC_FLUX)) ;;
       _send_float ch cmd current_ua 0 250.

Definition heat_detector (ch : chan) (current_ua : Q) : M bool :=
  if lacks ch 3 then ret false
  else cmd <- lift (_command _Actions.SET_DETECTOR_HEATER_CURRENT (PInt 0)) ;;
       _send_float ch cmd current_ua 0 1000.

Definition fast_reset_fll (ch : chan) : M bool :=
  if lacks ch 3 then ret false
  else cmd <- lift (_command _Actions.SET_FLL_MODE (PFLL FAST_RESET_MODE)) ;;
       _issue ch cmd [0; 0].

(** [heat_squid]: [duration_ms] is a Python int, so [round] keeps it. *)
Definition heat_squid (ch : chan) (duration_ms : Z) : M bool :=
  if lacks ch 1 then ret false
  else if negb ((0 <=? duration_ms) && (duration_ms <=? 65535)) then raise ValueError
  else cmd <- lift (_command _Actions.SQUID_HEATER_SWITCH (PInt 0)) ;;
       bs <- lift (to_bytes2_unsigned duration_ms) ;;
       _issue ch cmd bs.

(** ** The nonvolatile-memory properties (lines 133-164)

    Python evaluates the arguments of each [_query] call, [_command]
    included, before the call, and the operands of [+] and of a tuple from
    left to right. *)
Definition firmware (ch : chan) : M Z :=
  cmd <- lift (_command _Actions.READ_NONVOLATILE_MEMORY (PInt 0)) ;;
  r <- _query ch cmd [0; 242] ;;
  ret (from_bytes_big r).

Definition channel_creation_date (ch : chan) : M Z :=
  cmd1 <- lift (_command _Actions.READ_NONVOLATILE_MEMORY (PInt 0)) ;;
  r1 <- _query ch cmd1 [0; 244] ;;
  cmd2 <- lift (_command _Actions.READ_NONVOLATILE_MEMORY (PInt 0)) ;;
  r2 <- _query ch cmd2 [0; 246] ;;
  ret (from_bytes_big (r1 ++ r2)).

Definition number (ch : chan) : M Z :=
  cmd <- lift (_command _Actions.READ_NONVOLATILE_MEMORY (PInt 0)) ;;
  r <- _query ch cmd [0; 250] ;;
  ret (from_bytes_big r).

Definition auto_tune_range (ch : chan) : M (Q * Q) :=
  cmd1 <- lift (_command _Actions.READ_NONVOLATILE_MEMORY (PInt 0)) ;;
  r1 <- _query ch cmd1 [0; _Address.START_BIAS] ;;
  cmd2 <- lift (_command _Actions.READ_NONVOLATILE_MEMORY (PInt 0)) ;;
  r2 <- _query ch cmd2 [0; _Address.END_BIAS] ;;
  ret (_unmap r1 V_MIN V_MAX, _unmap r2 V_MIN V_MAX).

Definition read_setting (address : Z) (ch : chan) : M Q :=
  cmd <- lift (_command _Actions.READ_NONVOLATILE_MEMORY (PInt 0)) ;;
  r <- _query ch cmd [0; address] ;;
  ret (_unmap r V_MIN V_MAX).

Definition auto_tune_bias := read_setting _Address.BIAS.
Definition auto_tune_offset := read_setting _Address.OFFSET.
Definition auto_tune_flux := read_setting _Address.FLUX.

(** [SupraConSQUIDChannel.__init__]: the returned booleans are dropped. *)
Definition chan_init (c caps : Z) : M chan :=
  let ch := mkChan c caps in
  detector_bias ch 0 ;;
  dc_bias ch 0 ;;
  offset ch 0 ;;
  flux ch 0 ;;
  change_ac_flux_amplitude_by ch (-12) ;;
  ac_flux ch false ;;
  test_in ch false ;;
  bias ch 0 ;;
  ret ch.

(** [SupraConSQUIDChannel.__del__] *)
Definition chan_del (ch : chan) : M unit :=
  detector_bias ch 0 ;;
  dc_bias ch 0 ;;
  bias ch 0 ;;
  offset ch 0 ;;
  flux ch 0 ;;
  reset_fll ch true ;;
  ac_flux ch false ;;
  test_in ch false ;;
  ret tt.

(** ** [SupraConSQUID] (lines 274-329)

    [self._channels.clear()] drops the dict's references to the channels;
    with the dict as their only holder, CPython runs each [__del__] at once,
    in the dict's order. *)
Definition clear_channels : M unit :=
  fun d => iter (fun kc => ignore_exn (chan_del (snd kc))) (_channels d)
                (set_channels [] d).

Definition exchange_global (frame : bytes) : M unit :=
  write frame ;; read 4 ;; ret tt.

Definition ZEROS : bytes := [255; 0; 0; 0].

Definition capability_request (c : Z) : bytes := [c; 64; 0; 240].

Definition scan_channel (c : Z) : M unit :=
  request <- lift (bytearray (capability_request c)) ;;
  write request ;;
  response <- read 4 ;;
  match nth_error response 1 with
  | None => raise IndexError
  | Some b =>
      if b =? 255 then
        ch <- chan_init c (from_bytes_big (skipn 2 response)) ;;
        (fun d => (Ok tt, set_channels (dict_set c ch (_channels d)) d))
      else if negb (bytes_eqb response request) then raise ConnectionError
      else ret tt
  end.

(** [range(0x01, 0x21)] *)
Definition ADDRESSES : list Z := map Z.of_nat (seq 1 32).

Definition open_ : M unit :=
  fun d =>
    if is_open d then (Ok tt, d)
    else (port_open ;;
          exchange_global [255; 9; 0; 0] ;; exchange_global ZEROS ;;
          exchange_global [255; 10; 0; 0] ;; exchange_global ZEROS ;;
          exchange_global [255; 11; 0; 0] ;; exchange_global ZEROS ;;
          clear_channels ;;
          iter scan_channel ADDRESSES) d.

Definition close_ : M unit :=
  fun d =>
    if is_open d then
      (clear_channels ;;
       exchange_global [255; 8; 0; 0] ;;
       exchange_global ZEROS ;;
       port_close) d
    else port_close d.

End Driver.

(** [SupraConSQUID.__getitem__] and [SupraConSQUID.channels] *)
Definition getitem (d : device) (item : Z) : result chan :=
  if negb ((0 <=? item) && (item <? Z.of_nat (List.length (_channels d)))) then Raise IndexError
  else match dict_get item (_channels d) with
       | Some ch => Ok ch
       | None => Raise KeyError
       end.

Definition channels (d : device) : list Z := map fst (_channels d).

(** ** [SupraConSQUID.list_devices] (lines 337-362)

    The scanner probes every (port, baud rate) pair with a plain
    [serial.Serial].  What the operating system does on each call is a
    parameter: [open_outcome], [write_outcome] (an exception, or [None] on
    success) and [read_outcome] (the bytes read, or an exception). *)

Module Scanner.

Record port_info := mkPort { device_name : string; vid : option Z; pid : option Z }.

Record world := mkWorld {
  open_outcome : string -> Z -> option exn;
  write_outcome : string -> Z -> option exn;
  read_outcome : string -> Z -> result bytes }.

Record serial := mkSerial { s_open : bool; s_port : string; s_baud : Z }.

Definition PROBE : bytes := [0; 64; 0; 240].

Definition BAUD_RATES : list Z := [57600; 9600; 38400; 19200].

(** [Serial.open] refuses an open port; a failure of the OS call is
    re-raised as [SerialException] by pyserial. *)
Definition s_open_port (w : world) (s : serial) : result unit * serial :=
  if s_open s then (Raise SerialException, s)
  else match open_outcome w (s_port s) (s_baud s) with
       | Some e => (Raise e, s)
       | None => (Ok tt, mkSerial true (s_port s) (s_baud s))
       end.

Definition s_write (w : world) (s : serial) : result unit :=
  if negb (s_open s) then Raise PortNotOpenError
  else match write_outcome w (s_port s) (s_baud s) with
       | Some e => Raise e
       | None => Ok tt
       end.

Definition s_read (w : world) (s : serial) : result bytes :=
  if negb (s_open s) then Raise PortNotOpenError else read_outcome w (s_port s) (s_baud s).

Definition s_close (s : serial) : serial := mkSerial false (s_port s) (s_baud s).

(** [except (PortNotOpenError, TimeoutError)] *)
Definition caught (e : exn) : bool :=
  match e with PortNotOpenError | TimeoutError => true | _ => false end.

(** One iteration of the inner loop: open, write the probe, then
    [try: read  except: continue  else: compare  finally: close]. *)
Definition probe (w : world) (port : string) (baud : Z) (s : serial)
    (good : list (string * Z)) : result (list (string * Z)) * serial :=
  let s := mkSerial (s_open s) port baud in
  match s_open_port w s with
  | (Raise e, s1) => (Raise e, s1)
  | (Ok _, s1) =>
      match s_write w s1 with
      | Raise e => (Raise e, s1)
      | Ok _ =>
          match s_read w s1 with
          | Ok response =>
              (Ok (if bytes_eqb response PROBE then good ++ [(port, baud)] else good), s_close s1)
          | Raise e => if caught e then (Ok good, s_close s1) else (Raise e, s_close s1)
          end
      end
  end.

Fixpoint probe_bauds (w : world) (port : string) (bauds : list Z) (s : serial)
    (good : list (string * Z)) : result (list (string * Z)) * serial :=
  match bauds with
  | [] => (Ok good, s)
  | b :: bs =>
      match probe w port b s good with
      | (Ok good', s') => probe_bauds w port bs s' good'
      | (Raise e, s') => (Raise e, s')
      end
  end.

Definition selected (fvid fpid : option Z) (p : port_info) : bool :=
  (match fvid with None => true | Some v => match vid p with Some v' => v' =? v | None => false end end) &&
  (match fpid with None => true | Some v => match pid p with Some v' => v' =? v | None => false end end).

Fixpoint scan_ports (w : world) (fvid fpid : option Z) (ports : list port_info) (s : serial)
    (good : list (string * Z)) : result (list (string * Z)) * serial :=
  match ports with
  | [] => (Ok good, s)
  | p :: ps =>
      if selected fvid fpid p then
        match probe_bauds w (device_name p) BAUD_RATES s good with
        | (Ok good', s') => scan_ports w fvid fpid ps s' good'
        | (Raise e, s') => (Raise e, s')
        end
      else scan_ports w fvid fpid ps s good
  end.

Definition list_devices (w : world) (fvid fpid : option Z) (ports : list port_info)
    : result (list (string * Z)) * serial :=
  scan_ports w fvid fpid ports (mkSerial false EmptyString 9600) [].

(** A test world: [busy] cannot be opened, [flaky] fails on write, [good]
    answers the probe at 57600 baud; every other read times out short. *)
Definition test_world : world :=
  mkWorld
    (fun port _ => if String.eqb port "busy" then Some SerialException else None)
    (fun port _ => if String.eqb port "flaky" then Some SerialException else None)
    (fun port baud => if String.eqb port "good" && (baud =? 57600) then Ok PROBE else Ok []).

End Scanner.

(** ** Exchanges performed by a computation

    [performs m reqs a]: on an open port, [m] writes the frames [reqs] in
    order, reads the 4-byte answer to each, raises nothing, leaves the
    channel dict alone and returns [a]. *)

Section Exchanges.

Variable respond : bytes -> bytes.

Definition answer (req : bytes) : bytes := firstn 4 (respond req).

Definition exch (req : bytes) : list event := [EvWrite req; EvRead (answer req)].

(** The acknowledgement the box sends for [(channel, command, d0, d1)]. *)
Definition ack (req : bytes) : bytes :=
  match req with
  | c :: _ :: data => c :: 255 :: data
  | _ => req
  end.

Definition acked (req : bytes) : bool := bytes_eqb (answer req) (ack req).

Definition performs {A} (m : M A) (reqs : list bytes) (a : A) : Prop :=
  forall d, is_open d = true ->
    m d = (Ok a, mkDevice true (_channels d) (last reqs (last_req d))
                          (events d ++ flat_map exch reqs)).

(** The frame a gated operation sends: nothing when the capability bits
    are missing ([if not self.capabilities_code & mask: return False]). *)
Definition gate (ch : chan) (mask : Z) (fr : bytes) : list bytes :=
  if lacks ch mask then [] else [fr].

Definition gated (ch : chan) (mask : Z) (fr : bytes) : bool :=
  if lacks ch mask then false else acked fr.

(** Frames of [SupraConSQUIDChannel.__init__]: detector bias 0, DC bias 0,
    offset 0, flux 0, AC-flux amplitude -12, AC flux off, test input off,
    bias 0.  A zero in [-2.5, 2.5] encodes to [0x8000]; a zero detector
    bias in [0, 250] to [0x0000]. *)
Definition init_frames (ch : chan) : list bytes :=
  let c := channel ch in
  gate ch 3 [c; 9; 0; 0] ++ gate ch 1 [c; 8; 128; 0] ++ gate ch 1 [c; 11; 128; 0] ++
  gate ch 1 [c; 12; 128; 0] ++ gate ch 1 [c; 96; 255; 244] ++ gate ch 1 [c; 41; 0; 0] ++
  gate ch 1 [c; 80; 0; 0] ++ gate ch 1 [c; 10; 128; 0].

(** Frames of [SupraConSQUIDChannel.__del__]: detector bias 0, DC bias 0,
    bias 0, offset 0, flux 0, FLL reset mode, AC flux off, test input off. *)
Definition teardown_frames (ch : chan) : list bytes :=
  let c := channel ch in
  gate ch 3 [c; 9; 0; 0] ++ gate ch 1 [c; 8; 128; 0] ++ gate ch 1 [c; 10; 128; 0] ++
  gate ch 1 [c; 11; 128; 0] ++ gate ch 1 [c; 12; 128; 0] ++ gate ch 1 [c; 33; 0; 0] ++
  gate ch 1 [c; 41; 0; 0] ++ gate ch 1 [c; 80; 0; 0].

(** The encoded value [_send_float] sends for a bias. *)
Definition encode_bias (v : Q) : bytes :=
  match _map v V_MIN V_MAX with Ok b => b | Raise _ => [] end.

(** Frames of [auto_tune_squid]: offset 0 (opcode 0x0B), flux 0 (0x0C),
    FLL mode (0x20), AC flux off (0x29), test input off (0x50), the
    nonvolatile-memory writes (0x48) of address 0, the start bias,
    address 2 and the end bias, then start autotune (0x38). *)
Definition autotune_frames (c : Z) (start_code end_code : bytes) : list bytes :=
  [[c; 11; 128; 0]; [c; 12; 128; 0]; [c; 32; 0; 0]; [c; 41; 0; 0]; [c; 80; 0; 0];
   [c; 72; 0; 0]; c :: 72 :: start_code; [c; 72; 0; 2]; c :: 72 :: end_code;
   [c; 56; 0; 0]].

(** The frames a computation wrote, and among them the capability queries
    (opcode byte [0x40]). *)
Definition writes (evs : list event) : list bytes :=
  flat_map (fun e => match e with EvWrite r => [r] | _ => [] end) evs.

Definition is_capq (r : bytes) : bool := nth 1 r 0 =? 64.


(** [stays m]: started on an open port, [m] ends, raising or not, with the
    port still open and the channel dict unchanged. *)
Definition stays {A} (m : M A) : Prop :=
  forall d, is_open d = true ->
    is_open (snd (m d)) = true /\ _channels (snd (m d)) = _channels d.

(** [raises_after m reqs e]: on an open port, [m] exchanges the frames
    [reqs] and then raises [e], leaving the channel dict alone. *)
Definition raises_after {A} (m : M A) (reqs : list bytes) (e : exn) : Prop :=
  forall d, is_open d = true ->
    m d = (Raise e, mkDevice true (_channels d) (last reqs (last_req d))
                             (events d ++ flat_map exch reqs)).

Lemma last_default {T} (l : list T) (x y : T) :
  l <> [] -> last l x = last l y.
Proof.
  induction l as [|a l IH]; intros Hl; [congruence|].
  destruct l as [|b l]; [reflexivity|].
  simpl in *. apply IH. discriminate.
Qed.

Lemma last_app_default {T} (l1 l2 : list T) (x : T) :
  last (l1 ++ l2) x = last l2 (last l1 x).
Proof.
  revert x. induction l1 as [|a l1 IH]; intros x; [reflexivity|].
  destruct l1 as [|c l1].
  - destruct l2 as [|b l2]; [reflexivity|].
    change (last (b :: l2) x = last (b :: l2) a).
    apply last_default; discriminate.
  - change (last (c :: l1 ++ l2) x = last l2 (last (c :: l1) x)).
    rewrite <- IH; reflexivity.
Qed.

Lemma performs_ret {A} (a : A) : performs (ret a) [] a.
Proof.
  intros [o cs l ev] Ho; simpl in Ho; subst o; unfold ret; simpl.
  rewrite app_nil_r; reflexivity.
Qed.

Lemma performs_bind {A B} (m : M A) (k : A -> M B) r1 r2 a b :
  performs m r1 a -> performs (k a) r2 b -> performs (bind m k) (r1 ++ r2) b.
Proof.
  intros H1 H2 d Ho. unfold bind. rewrite (H1 d Ho).
  rewrite H2 by reflexivity. simpl. f_equal. f_equal.
  - rewrite last_app_default; reflexivity.
  - rewrite flat_map_app, app_assoc; reflexivity.
Qed.

Lemma performs_lift {A} (a : A) : performs (lift (Ok a)) [] a.
Proof. apply performs_ret. Qed.

Lemma performs_bind_lift {A B} (r : result A) (a : A) (k : A -> M B) reqs b :
  r = Ok a -> performs (k a) reqs b -> performs (bind (lift r) k) reqs b.
Proof.
  intros -> H d Ho. unfold bind, lift. apply H, Ho.
Qed.

Lemma bytes_eqb_spec x y : bytes_eqb x y = true <-> x = y.
Proof.
  unfold bytes_eqb; destruct (list_eq_dec Z.eq_dec x y); split; congruence.
Qed.

Lemma is_byte_iff b : is_byte b = true <-> 0 <= b <= 255.
Proof.
  unfold is_byte; rewrite andb_true_iff, !Z.leb_le; reflexivity.
Qed.

(** One [_issue] with well-formed arguments is one exchange. *)
Lemma issue_performs ch cmd d0 d1 :
  is_byte (channel ch) = true -> is_byte cmd = true ->
  is_byte d0 = true -> is_byte d1 = true ->
  performs (_issue respond ch cmd [d0; d1]) [[channel ch; cmd; d0; d1]]
           (acked [channel ch; cmd; d0; d1]).
Proof.
  intros Hc Hm H0 H1 [o cs l ev] Ho; simpl in Ho; subst o.
  pose proof Hm as Hm'. apply is_byte_iff in Hm'.
  unfold _issue, _communicate, _validate_parameters, bytearray, bind, lift, write, read, ret.
  simpl forallb. rewrite Hc, H0, H1, Hm. cbn.
  replace ((0 <=? cmd) && (cmd <=? 255)) with true
    by (symmetry; apply andb_true_iff; split; apply Z.leb_le; lia).
  cbn. unfold acked, answer, ack, log, set_last_req. simpl.
  rewrite <- app_assoc. reflexivity.
Qed.

Lemma send_float_performs ch cmd v lo hi b0 b1 :
  Qle_bool lo v && Qle_bool v hi = true ->
  _map v lo hi = Ok [b0; b1] ->
  is_byte (channel ch) = true -> is_byte cmd = true ->
  is_byte b0 = true -> is_byte b1 = true ->
  performs (_send_float respond ch cmd v lo hi) [[channel ch; cmd; b0; b1]]
           (acked [channel ch; cmd; b0; b1]).
Proof.
  intros Hr Hm Hc Hk H0 H1. unfold _send_float. rewrite Hr. simpl negb. cbv iota.
  apply (performs_bind_lift _ [b0; b1]); [exact Hm|].
  apply issue_performs; assumption.
Qed.

Lemma performs_conv {A} (m : M A) r a r' a' :
  performs m r a -> r = r' -> a = a' -> performs m r' a'.
Proof. intros H -> ->; exact H. Qed.

Lemma performs_ignore_exn (m : M unit) r :
  performs m r tt -> performs (ignore_exn m) r tt.
Proof. intros H d Ho. unfold ignore_exn. rewrite (H d Ho). reflexivity. Qed.

Lemma performs_iter {A} (f : A -> M unit) (g : A -> list bytes) xs :
  (forall x, In x xs -> performs (f x) (g x) tt) ->
  performs (iter f xs) (flat_map g xs) tt.
Proof.
  induction xs as [|x xs IH]; intros H; simpl; [apply performs_ret|].
  apply (performs_bind _ _ _ _ tt); [apply H; left; reflexivity|].
  apply IH. intros y Hy; apply H; right; exact Hy.
Qed.

Lemma performs_exchange_global fr :
  performs (exchange_global respond fr) [fr] tt.
Proof.
  intros [o cs l ev] Ho; simpl in Ho; subst o.
  unfold exchange_global, bind, write, read, ret. simpl.
  unfold log, set_last_req. simpl. rewrite <- app_assoc. reflexivity.
Qed.

Create HintDb perf.

Lemma dac_zero_performs which ch :
  is_byte (channel ch) = true ->
  performs (dac_setter respond which ch 0)
           (gate ch 1 [channel ch; Z.lor 8 (dac_value which); 128; 0])
           (gated ch 1 [channel ch; Z.lor 8 (dac_value which); 128; 0]).
Proof.
  intros Hc. unfold dac_setter, gate, gated. destruct (lacks ch 1); [apply performs_ret|].
  eapply performs_bind_lift; [reflexivity|].
  apply send_float_performs; try reflexivity; try assumption.
  destruct which; reflexivity.
Qed.

Lemma dc_bias_zero_performs ch :
  is_byte (channel ch) = true ->
  performs (dc_bias respond ch 0) (gate ch 1 [channel ch; 8; 128; 0])
           (gated ch 1 [channel ch; 8; 128; 0]).
Proof. apply (dac_zero_performs DC_BIAS). Qed.

Lemma bias_zero_performs ch :
  is_byte (channel ch) = true ->
  performs (bias respond ch 0) (gate ch 1 [channel ch; 10; 128; 0])
           (gated ch 1 [channel ch; 10; 128; 0]).
Proof. apply (dac_zero_performs BIAS). Qed.

Lemma offset_zero_performs ch :
  is_byte (channel ch) = true ->
  performs (offset respond ch 0) (gate ch 1 [channel ch; 11; 128; 0])
           (gated ch 1 [channel ch; 11; 128; 0]).
Proof. apply (dac_zero_performs OFFSET). Qed.

Lemma flux_zero_performs ch :
  is_byte (channel ch) = true ->
  performs (flux respond ch 0) (gate ch 1 [channel ch; 12; 128; 0])
           (gated ch 1 [channel ch; 12; 128; 0]).
Proof. apply (dac_zero_performs FLUX). Qed.

Lemma detector_bias_zero_performs ch :
  is_byte (channel ch) = true ->
  performs (detector_bias respond ch 0) (gate ch 3 [channel ch; 9; 0; 0])
           (gated ch 3 [channel ch; 9; 0; 0]).
Proof.
  intros Hc. unfold detector_bias, gate, gated. destruct (lacks ch 3); [apply performs_ret|].
  eapply performs_bind_lift; [reflexivity|].
  apply send_float_performs; try reflexivity; assumption.
Qed.

Lemma ac_flux_performs ch on :
  is_byte (channel ch) = true ->
  performs (ac_flux respond ch on) (gate ch 1 [channel ch; 41; 0; Z.b2z on])
           (gated ch 1 [channel ch; 41; 0; Z.b2z on]).
Proof.
  intros Hc. unfold ac_flux, gate, gated. destruct (lacks ch 1); [apply performs_ret|].
  eapply performs_bind_lift; [reflexivity|].
  apply issue_performs; try reflexivity; try assumption. destruct on; reflexivity.
Qed.

Lemma test_in_performs ch on :
  is_byte (channel ch) = true ->
  performs (test_in respond ch on) (gate ch 1 [channel ch; 80; 0; Z.b2z on])
           (gated ch 1 [channel ch; 80; 0; Z.b2z on]).
Proof.
  intros Hc. unfold test_in, gate, gated. destruct (lacks ch 1); [apply performs_ret|].
  eapply performs_bind_lift; [reflexivity|].
  apply issue_performs; try reflexivity; try assumption. destruct on; reflexivity.
Qed.

Lemma reset_fll_performs ch on :
  is_byte (channel ch) = true ->
  performs (reset_fll respond ch on) (gate ch 1 [channel ch; if on then 33 else 32; 0; 0])
           (gated ch 1 [channel ch; if on then 33 else 32; 0; 0]).
Proof.
  intros Hc. unfold reset_fll, gate, gated. destruct (lacks ch 1); [apply performs_ret|].
  destruct on; (eapply performs_bind_lift; [reflexivity|]);
    apply issue_performs; try reflexivity; assumption.
Qed.

Lemma change_amplitude_minus12_performs ch :
  is_byte (channel ch) = true ->
  performs (change_ac_flux_amplitude_by respond ch (-12)) (gate ch 1 [channel ch; 96; 255; 244])
           (gated ch 1 [channel ch; 96; 255; 244]).
Proof.
  intros Hc. unfold change_ac_flux_amplitude_by, gate, gated.
  destruct (lacks ch 1); [apply performs_ret|]. simpl.
  eapply performs_bind_lift; [reflexivity|].
  eapply performs_bind_lift; [reflexivity|].
  apply issue_performs; try reflexivity; assumption.
Qed.

#[local] Hint Resolve dc_bias_zero_performs bias_zero_performs offset_zero_performs
  flux_zero_performs detector_bias_zero_performs ac_flux_performs test_in_performs
  reset_fll_performs change_amplitude_minus12_performs performs_ret : perf.

Ltac run_steps :=
  repeat (eapply performs_bind; [solve [auto with perf] |]); apply performs_ret.


Lemma chan_del_performs ch :
  is_byte (channel ch) = true ->
  performs (chan_del respond ch) (teardown_frames ch) tt.
Proof.
  intros Hc. unfold chan_del.
  eapply performs_conv; [run_steps | | reflexivity].
  unfold teardown_frames. simpl. rewrite !app_nil_r. reflexivity.
Qed.

End Exchanges.

(** ** Helper facts *)

Lemma dict_get_none_iff {V} (k : Z) (l : list (Z * V)) :
  dict_get k l = None <-> ~ In k (map fst l).
Proof.
  induction l as [|[k' v'] l IH]; simpl; [tauto|].
  destruct (Z.eqb_spec k k') as [->|Hne]; split.
  - discriminate.
  - intros H; exfalso; apply H; left; reflexivity.
  - intros H [Heq|Hin]; [congruence|]. apply IH in H. contradiction.
  - intros H. apply IH. intros Hin; apply H; right; exact Hin.
Qed.

(** Whatever [_query] returns is the data bytes of its own request. *)
Lemma query_returns_request_data respond ch cmd data d x d' :
  _query respond ch cmd data d = (Ok x, d') -> x = data.
Proof.
  unfold _query, bind, lift, ret, raise.
  destruct (_validate_parameters cmd data); [|discriminate].
  destruct (bytearray (channel ch :: 255 :: data)) as [e|] eqn:Hb; [|discriminate].
  destruct (_communicate respond ch cmd data d) as [[r|] d2]; [|discriminate].
  destruct (bytes_eqb r e) eqn:Heq; simpl; [|discriminate].
  intros H; inversion H; subst.
  apply bytes_eqb_spec in Heq; subst.
  unfold bytearray in Hb. destruct (forallb is_byte _); inversion Hb; reflexivity.
Qed.

(** ** Claims about the exchange primitives, the codec, opcodes and indexing *)

(** C2: for a channel address, a command byte and two data bytes, [_issue]
    writes the request [(channel, command, d0, d1)], reads 4 bytes and does
    nothing else; it raises nothing and returns [true] exactly when the
    answer is [(channel, 0xFF, d0, d1)]. *)
Theorem issue_true_iff_echo respond ch cmd d0 d1 d :
  is_open d = true ->
  0 <= channel ch <= 255 -> 0 <= cmd <= 255 -> 0 <= d0 <= 255 -> 0 <= d1 <= 255 ->
  exists b,
    _issue respond ch cmd [d0; d1] d =
      (Ok b, mkDevice true (_channels d) [channel ch; cmd; d0; d1]
               (events d ++ [EvWrite [channel ch; cmd; d0; d1];
                             EvRead (firstn 4 (respond [channel ch; cmd; d0; d1]))])) /\
    (b = true <-> firstn 4 (respond [channel ch; cmd; d0; d1]) = [channel ch; 255; d0; d1]).
Proof.
  intros Ho Hc Hm H0 H1.
  exists (acked respond [channel ch; cmd; d0; d1]). split.
  - rewrite (issue_performs respond ch cmd d0 d1
               ltac:(apply is_byte_iff; lia) ltac:(apply is_byte_iff; lia)
               ltac:(apply is_byte_iff; lia) ltac:(apply is_byte_iff; lia) d Ho).
    reflexivity.
  - unfold acked, ack, answer. apply bytes_eqb_spec.
Qed.

Lemma issue_true_iff_echo_witness :
  exists b,
    _issue (fun _ => [3; 255; 7; 9]) (mkChan 3 1) 8 [7; 9] (mkDevice true [] [] []) =
      (Ok b, mkDevice true [] [3; 8; 7; 9] ([] ++ [EvWrite [3; 8; 7; 9]; EvRead [3; 255; 7; 9]])) /\
    (b = true <-> [3; 255; 7; 9] = [3; 255; 7; 9]).
Proof.
  apply (issue_true_iff_echo (fun _ => [3; 255; 7; 9]) (mkChan 3 1) 8 7 9
           (mkDevice true [] [] [])); simpl; (reflexivity || lia).
Defined.

(** C3 (defect): [_query] compares the whole answer with
    [(channel, 0xFF, d0, d1)], so an answer carrying a payload different from
    the request's data bytes, such as the firmware word read back from
    address [0x00F2], raises [ConnectionError] instead of being returned. *)
Theorem query_rejects_payload_readback :
  fst (_query (fun _ => [1; 255; 1; 35]) (mkChan 1 1)
              (Z.shiftl _Actions.READ_NONVOLATILE_MEMORY 3) [0; 242]
              (mkDevice true [] [] [])) = Raise ConnectionError.
Proof. reflexivity. Qed.

(** C4 (defect): [_map] scales by [0xFFFF] but [_unmap] divides by
    [0x10000]; on the bias range [-2.5, 2.5] the value [327669/131070]
    (about 2.49998) comes back more than one encoding step
    [(max - min) / 65535] away from itself. *)
Theorem map_unmap_exceeds_one_step :
  let v := 327669 # 131070 in
  _map v V_MIN V_MAX = Ok [255; 254] /\
  Qlt (Qdiv (Qminus V_MAX V_MIN) (inject_Z 65535))
      (Qabs (Qminus (_unmap [255; 254] V_MIN V_MAX) v)).
Proof. split; vm_compute; reflexivity. Qed.

(** C5: [_command] builds [(action << 3) | parameter]; for [DAC_OUTPUT]
    exactly the five [_DACOutput] members are accepted, for [SWITCH_FEEDBACK]
    exactly the values 0 and 1, anything else raising [ValueError]; and
    [SWITCH_AC_FLUX], [SQUID_HEATER_SWITCH] always encode 1 and 2. *)
Theorem command_opcode_rules :
  (forall p, _command _Actions.DAC_OUTPUT p =
     if is_DACOutput p then Ok (Z.lor (Z.shiftl _Actions.DAC_OUTPUT 3) (param_value p))
     else Raise ValueError) /\
  (forall d, _command _Actions.DAC_OUTPUT (PDAC d) = Ok (Z.lor 8 (dac_value d))) /\
  (forall p, _command _Actions.SWITCH_FEEDBACK p =
     if (param_value p =? 0) || (param_value p =? 1)
     then Ok (Z.lor (Z.shiftl _Actions.SWITCH_FEEDBACK 3) (param_value p))
     else Raise ValueError) /\
  (forall p, _command _Actions.SWITCH_AC_FLUX p = Ok (Z.lor (Z.shiftl _Actions.SWITCH_AC_FLUX 3) 1)) /\
  (forall p, _command _Actions.SQUID_HEATER_SWITCH p =
     Ok (Z.lor (Z.shiftl _Actions.SQUID_HEATER_SWITCH 3) 2)).
Proof.
  split; [|split; [|split; [|split]]]; intros p.
  - destruct p; reflexivity.
  - reflexivity.
  - destruct p as [z|dv|f]; [|destruct dv|destruct f]; try reflexivity.
    unfold _command; simpl. destruct (z =? 0), (z =? 1); reflexivity.
  - reflexivity.
  - reflexivity.
Qed.

(** C10 (counterexample): with channels at addresses 1 and 2, which are not
    [0..n-1], index 1 is in bounds and returns channel 1. *)
Lemma getitem_in_bounds_hit :
  getitem (mkDevice true [(1, mkChan 1 1); (2, mkChan 2 1)] [] []) 1 = Ok (mkChan 1 1).
Proof. reflexivity. Qed.

(** C10 (amended): [device[i]] raises [IndexError] exactly when [i] is
    outside [0 <= i < n]; in bounds it returns the channel whose address is
    [i], and raises [KeyError] exactly when [i] is not a discovered address. *)
Theorem getitem_by_address d i :
  (getitem d i = Raise IndexError <-> ~ (0 <= i < Z.of_nat (List.length (_channels d)))) /\
  (getitem d i = Raise KeyError <->
     0 <= i < Z.of_nat (List.length (_channels d)) /\ ~ In i (channels d)) /\
  (forall ch, getitem d i = Ok ch <->
     0 <= i < Z.of_nat (List.length (_channels d)) /\ dict_get i (_channels d) = Some ch).
Proof.
  unfold getitem, channels.
  destruct ((0 <=? i) && (i <? Z.of_nat (List.length (_channels d)))) eqn:Hb;
    rewrite andb_true_iff, Z.leb_le, Z.ltb_lt in Hb || rewrite andb_false_iff, Z.leb_gt, Z.ltb_ge in Hb;
    simpl.
  - pose proof (dict_get_none_iff i (_channels d)) as Hn.
    destruct (dict_get i (_channels d)) as [c|] eqn:E.
    + split; [split; [discriminate | intros H; exfalso; apply H; exact Hb]|]. split.
      * split; [discriminate | intros [_ H]; apply Hn in H; discriminate].
      * intros ch; split; [intros H; inversion H; subst; auto
                          | intros [_ H]; inversion H; reflexivity].
    + split; [split; [discriminate | intros H; exfalso; apply H; exact Hb]|]. split.
      * split; [intros _; split; [exact Hb | apply Hn; reflexivity] | reflexivity].
      * intros ch; split; [discriminate | intros [_ H]; discriminate].
  - split; [split; [intros _; lia | reflexivity]|]. split.
    * split; [discriminate | intros [H _]; lia].
    * intros ch; split; [discriminate | intros [H _]; lia].
Qed.

Lemma clear_channels_teardown respond d :
  is_open d = true ->
  forallb (fun kc => is_byte (channel (snd kc))) (_channels d) = true ->
  clear_channels respond d =
    (Ok tt, mkDevice true []
       (last (flat_map (fun kc => teardown_frames (snd kc)) (_channels d)) (last_req d))
       (events d ++ flat_map (exch respond) (flat_map (fun kc => teardown_frames (snd kc)) (_channels d)))).
Proof.
  intros Ho Hb. unfold clear_channels.
  rewrite (performs_iter respond (fun kc => ignore_exn (chan_del respond (snd kc)))
             (fun kc => teardown_frames (snd kc))).
  - reflexivity.
  - intros kc Hin. apply performs_ignore_exn, chan_del_performs.
    rewrite forallb_forall in Hb. apply (Hb kc Hin).
  - exact Ho.
Qed.

(** ** Claims about the device lifecycle and the channel operations *)

(** C8: closing an open device runs each channel's [__del__] sequence in
    the dict's order (outputs to zero, FLL reset mode, AC flux and test
    input off), then sends [(0xFF, 0x08, 0, 0)] and the zero frame
    [(0xFF, 0, 0, 0)], then closes the port; closing a closed device
    exchanges nothing. *)
Theorem close_teardown_order respond d :
  is_open d = true ->
  forallb (fun kc => is_byte (channel (snd kc))) (_channels d) = true ->
  (let reqs := flat_map (fun kc => teardown_frames (snd kc)) (_channels d)
               ++ [[255; 8; 0; 0]; ZEROS] in
   close_ respond d =
     (Ok tt, mkDevice false [] ZEROS
               (events d ++ flat_map (exch respond) reqs ++ [EvClose]))) /\
  (forall d', is_open d' = false -> close_ respond d' = (Ok tt, d')).
Proof.
  intros Ho Hb. split.
  - simpl. unfold close_. rewrite Ho. unfold bind at 1.
    rewrite clear_channels_teardown by assumption.
    cbn. unfold log, set_last_req, set_open. simpl.
    rewrite flat_map_app. simpl. rewrite <- !app_assoc. reflexivity.
  - intros d' Hc. unfold close_, port_close. rewrite Hc. reflexivity.
Qed.

Lemma close_teardown_order_witness :
  (let reqs := flat_map (fun kc => teardown_frames (snd kc)) [(5, mkChan 5 1)]
               ++ [[255; 8; 0; 0]; ZEROS] in
   close_ ack (mkDevice true [(5, mkChan 5 1)] [] []) =
     (Ok tt, mkDevice false [] ZEROS ([] ++ flat_map (exch ack) reqs ++ [EvClose]))) /\
  (forall d', is_open d' = false -> close_ ack d' = (Ok tt, d')).
Proof.
  apply (close_teardown_order ack (mkDevice true [(5, mkChan 5 1)] [] []));
    reflexivity.
Defined.

(** The extended operations on a channel with neither bit 0 nor bit 1. *)
Lemma extended_ops_noop_without_bits respond ch v w d :
  Z.land (capabilities_code ch) 3 = 0 ->
  detector_bias respond ch v d = (Ok false, d) /\
  heat_detector respond ch w d = (Ok false, d) /\
  fast_reset_fll respond ch d = (Ok false, d).
Proof.
  intros H. unfold detector_bias, heat_detector, fast_reset_fll, lacks.
  rewrite H. repeat split.
Qed.

(** C6 (defect): the extended operations test [capabilities_code & 0x0003]
    for truthiness, so a channel with bit 0 only ([mask & 3 = 1]) is not
    refused: detector bias and fast FLL reset each exchange a frame, and the
    detector heater raises [ValueError] from [_command]. *)
Theorem extended_ops_not_gated_on_bit0_only :
  detector_bias ack (mkChan 5 1) 0 (mkDevice true [] [] []) =
    (Ok true, mkDevice true [] [5; 9; 0; 0] [EvWrite [5; 9; 0; 0]; EvRead [5; 255; 0; 0]]) /\
  fast_reset_fll ack (mkChan 5 1) (mkDevice true [] [] []) =
    (Ok true, mkDevice true [] [5; 34; 0; 0] [EvWrite [5; 34; 0; 0]; EvRead [5; 255; 0; 0]]) /\
  heat_detector ack (mkChan 5 1) 0 (mkDevice true [] [] []) =
    (Raise ValueError, mkDevice true [] [] []).
Proof. split; [|split]; vm_compute; reflexivity. Qed.

(** ** The value codec stays in 16 bits on its range *)

Lemma py_round_range q :
  (0 <= q)%Q -> (q <= inject_Z 65535)%Q -> 0 <= py_round q <= 65535.
Proof.
  intros H0 H1. unfold py_round.
  pose proof (Qfloor_le q) as Hf1. pose proof (Qlt_floor q) as Hf2.
  set (f := Qfloor q) in *.
  rewrite inject_Z_plus in Hf2.
  assert (Hlo : 0 <= f).
  { assert (-1 < f); [|lia].
    rewrite Zlt_Qlt. change (inject_Z (-1)) with (-1 # 1)%Q.
    change (inject_Z 1) with 1%Q in Hf2. lra. }
  assert (Hhi : f <= 65535).
  { rewrite Zle_Qle. lra. }
  destruct (Qle_bool (1 # 2) (q - inject_Z f)) eqn:E; simpl.
  - apply Qle_bool_iff in E.
    assert (Hlt : f < 65535).
    { rewrite Zlt_Qlt. lra. }
    destruct (Qle_bool (q - inject_Z f) (1 # 2)); simpl; [destruct (Z.even f)|]; lia.
  - lia.
Qed.

Lemma map_in_range lo hi x :
  (lo < hi)%Q -> (lo <= x)%Q -> (x <= hi)%Q ->
  exists b0 b1, _map x lo hi = Ok [b0; b1] /\ is_byte b0 = true /\ is_byte b1 = true.
Proof.
  intros Hlh Hl Hh. unfold _map.
  replace (Qle_bool lo x && Qle_bool x hi) with true
    by (symmetry; apply andb_true_iff; split; apply Qle_bool_iff; assumption).
  replace (Qeq_bool (hi - lo) 0) with false.
  2:{ symmetry. apply not_true_iff_false. rewrite Qeq_bool_iff. lra. }
  simpl negb. cbv iota.
  assert (Hpos : (0 < hi - lo)%Q) by lra.
  assert (Ht0 : (0 <= (x - lo) / (hi - lo))%Q).
  { apply Qle_shift_div_l; [exact Hpos|]. lra. }
  assert (Ht1 : ((x - lo) / (hi - lo) <= 1)%Q).
  { apply Qle_shift_div_r; [exact Hpos|]. lra. }
  set (t := ((x - lo) / (hi - lo))%Q) in *.
  destruct (py_round_range (t * inject_Z 65535)) as [Hr0 Hr1].
  { change (inject_Z 65535) with (65535 # 1). lra. }
  { change (inject_Z 65535) with (65535 # 1). lra. }
  set (r := py_round (t * inject_Z 65535)) in *.
  unfold to_bytes2_unsigned.
  replace ((0 <=? r) && (r <? 65536)) with true
    by (symmetry; apply andb_true_iff; split; [apply Z.leb_le | apply Z.ltb_lt]; lia).
  exists (r / 256), (r mod 256). split; [reflexivity|].
  split; apply is_byte_iff.
  - split; [apply Z.div_pos; lia|].
    assert (r / 256 < 256) by (apply Z.div_lt_upper_bound; lia). lia.
  - pose proof (Z.mod_pos_bound r 256 ltac:(lia)). lia.
Qed.

(** C7 (counterexample): [auto_tune_squid] calls [reset_fll(on=False)]:
    its third frame selects the FLL mode (opcode [0x20]), and the reset-mode
    frame (opcode [0x21]) is never sent. *)
Lemma autotune_third_step_is_fll_mode :
  writes (events (snd (auto_tune_squid ack (mkChan 5 1) 0 0 (mkDevice true [] [] [])))) =
    autotune_frames 5 [128; 0] [128; 0] /\
  nth 2 (autotune_frames 5 [128; 0] [128; 0]) [] = [5; 32; 0; 0] /\
  existsb (bytes_eqb [5; 33; 0; 0])
    (writes (events (snd (auto_tune_squid ack (mkChan 5 1) 0 0 (mkDevice true [] [] []))))) = false.
Proof. split; [|split]; vm_compute; reflexivity. Qed.

(** C7 (amended): on a channel with bit 0 and biases in [-2.5, 2.5],
    [auto_tune_squid] sends, in order, offset 0, flux 0, FLL mode (reset
    off), AC flux off, test input off, the nonvolatile-memory writes of the
    start-bias address, the encoded start bias, the end-bias address and the
    encoded end bias, then start autotune; every step runs whatever the
    earlier answers were, nothing is undone, and the result is [true]
    exactly when every frame was acknowledged. *)
Theorem autotune_sequence respond ch start_bias end_bias :
  is_byte (channel ch) = true -> lacks ch 1 = false ->
  Qle_bool V_MIN start_bias && Qle_bool start_bias V_MAX = true ->
  Qle_bool V_MIN end_bias && Qle_bool end_bias V_MAX = true ->
  performs respond (auto_tune_squid respond ch start_bias end_bias)
    (autotune_frames (channel ch) (encode_bias start_bias) (encode_bias end_bias))
    (forallb (acked respond)
       (autotune_frames (channel ch) (encode_bias start_bias) (encode_bias end_bias))).
Proof.
  intros Hc Hl Hs He.
  pose proof Hs as Hs'. pose proof He as He'.
  rewrite andb_true_iff, !Qle_bool_iff in Hs', He'.
  assert (Hlh : (V_MIN < V_MAX)%Q) by (vm_compute; reflexivity).
  destruct (map_in_range V_MIN V_MAX start_bias Hlh (proj1 Hs') (proj2 Hs'))
    as (s0 & s1 & Hms & Hs0 & Hs1).
  destruct (map_in_range V_MIN V_MAX end_bias Hlh (proj1 He') (proj2 He'))
    as (e0 & e1 & Hme & He0 & He1).
  unfold encode_bias. rewrite Hms, Hme.
  unfold auto_tune_squid. rewrite Hl.
  eapply performs_conv.
  - eapply performs_bind; [apply offset_zero_performs; exact Hc|].
    eapply performs_bind; [apply flux_zero_performs; exact Hc|].
    eapply performs_bind; [apply reset_fll_performs; exact Hc|].
    eapply performs_bind; [apply ac_flux_performs; exact Hc|].
    eapply performs_bind; [apply test_in_performs; exact Hc|].
    eapply performs_bind.
    { eapply performs_bind_lift; [reflexivity|].
      apply issue_performs; (reflexivity || exact Hc). }
    eapply performs_bind.
    { eapply performs_bind_lift; [reflexivity|].
      apply (send_float_performs respond ch _ start_bias _ _ s0 s1);
        (reflexivity || assumption). }
    eapply performs_bind.
    { eapply performs_bind_lift; [reflexivity|].
      apply issue_performs; (reflexivity || exact Hc). }
    eapply performs_bind.
    { eapply performs_bind_lift; [reflexivity|].
      apply (send_float_performs respond ch _ end_bias _ _ e0 e1);
        (reflexivity || assumption). }
    eapply performs_bind.
    { eapply performs_bind_lift; [reflexivity|].
      apply issue_performs; (reflexivity || exact Hc). }
    apply performs_ret.
  - unfold gate. rewrite Hl. reflexivity.
  - unfold gated. rewrite Hl. reflexivity.
Qed.

Lemma autotune_sequence_witness :
  performs ack (auto_tune_squid ack (mkChan 5 1) 0 0)
    (autotune_frames 5 (encode_bias 0) (encode_bias 0))
    (forallb (acked ack) (autotune_frames 5 (encode_bias 0) (encode_bias 0))).
Proof.
  apply (autotune_sequence ack (mkChan 5 1) 0 0); reflexivity.
Defined.

(** ** Discovery scan *)





Lemma init_frames_no_capq ch : filter is_capq (init_frames ch) = [].
Proof.
  unfold init_frames, gate. destruct (lacks ch 3), (lacks ch 1); reflexivity.
Qed.


Lemma bind_performs {A B} respond (m : M A) (k : A -> M B) r a d :
  performs respond m r a -> is_open d = true ->
  bind m k d = k a (mkDevice true (_channels d) (last r (last_req d))
                             (events d ++ flat_map (exch respond) r)).
Proof. intros H Ho. unfold bind. rewrite (H d Ho). reflexivity. Qed.














(** C9 (defect): only [s.read(4)] sits inside the [try]; an error raised
    by [s.open()] or [s.write()] escapes [list_devices] and ends the whole
    scan, and after a failed write the port is left open.  Alone, the port
    [good] is found at 57600 baud; behind a busy or a failing port it is
    never probed. *)
Theorem list_devices_aborts_on_open_or_write_error :
  Scanner.list_devices Scanner.test_world None None
    [Scanner.mkPort "busy" None None; Scanner.mkPort "good" None None] =
    (Raise SerialException, Scanner.mkSerial false "busy" 57600) /\
  Scanner.list_devices Scanner.test_world None None
    [Scanner.mkPort "flaky" None None; Scanner.mkPort "good" None None] =
    (Raise SerialException, Scanner.mkSerial true "flaky" 57600) /\
  Scanner.list_devices Scanner.test_world None None [Scanner.mkPort "good" None None] =
    (Ok [("good"%string, 57600)], Scanner.mkSerial false "good" 19200).
Proof. split; [|split]; vm_compute; reflexivity. Qed.

(** ** Further properties of the value codec *)

Lemma py_round_comp q r : (q == r)%Q -> py_round q = py_round r.
Proof.
  intros H. unfold py_round. rewrite (Qfloor_comp q r H).
  set (f := Qfloor r).
  replace (Qle_bool (1 # 2) (q - inject_Z f)) with (Qle_bool (1 # 2) (r - inject_Z f))
    by (apply eq_true_iff_eq; rewrite !Qle_bool_iff; split; intros; lra).
  replace (Qle_bool (q - inject_Z f) (1 # 2)) with (Qle_bool (r - inject_Z f) (1 # 2))
    by (apply eq_true_iff_eq; rewrite !Qle_bool_iff; split; intros; lra).
  reflexivity.
Qed.

Lemma py_round_near q :
  (q - (1 # 2) <= inject_Z (py_round q))%Q /\ (inject_Z (py_round q) <= q + (1 # 2))%Q.
Proof.
  unfold py_round.
  pose proof (Qfloor_le q) as Hf1. pose proof (Qlt_floor q) as Hf2.
  set (f := Qfloor q) in *.
  rewrite inject_Z_plus in Hf2. change (inject_Z 1) with 1%Q in Hf2.
  destruct (Qle_bool (1 # 2) (q - inject_Z f)) eqn:E1; simpl.
  - apply Qle_bool_iff in E1.
    destruct (Qle_bool (q - inject_Z f) (1 # 2)) eqn:E2; simpl.
    + apply Qle_bool_iff in E2.
      destruct (Z.even f); rewrite ?inject_Z_plus; change (inject_Z 1) with 1%Q; lra.
    + apply not_true_iff_false in E2. rewrite Qle_bool_iff in E2. apply Qnot_le_lt in E2.
      rewrite inject_Z_plus. change (inject_Z 1) with 1%Q. lra.
  - apply not_true_iff_false in E1. rewrite Qle_bool_iff in E1. apply Qnot_le_lt in E1.
    lra.
Qed.

Lemma py_round_mono q r : (q <= r)%Q -> py_round q <= py_round r.
Proof.
  intros H. destruct (Z.le_gt_cases (py_round q) (py_round r)) as [Hle|Hgt]; [exact Hle|].
  exfalso.
  destruct (py_round_near q) as [_ Hq]. destruct (py_round_near r) as [Hr _].
  assert (Hz : (inject_Z (py_round r) + 1 <= inject_Z (py_round q))%Q).
  { change 1%Q with (inject_Z 1). rewrite <- inject_Z_plus, <- Zle_Qle. lia. }
  assert (Hqr : (q == r)%Q) by lra.
  rewrite (py_round_comp q r Hqr) in Hgt. lia.
Qed.

Lemma from_to_bytes2_unsigned n bs :
  to_bytes2_unsigned n = Ok bs ->
  bs = [n / 256; n mod 256] /\ 0 <= n < 65536 /\ from_bytes_big bs = n.
Proof.
  unfold to_bytes2_unsigned.
  destruct ((0 <=? n) && (n <? 65536)) eqn:E; [|discriminate].
  rewrite andb_true_iff, Z.leb_le, Z.ltb_lt in E.
  intros H; inversion H; subst. split; [reflexivity|]. split; [exact E|].
  unfold from_bytes_big; cbn [fold_left]. pose proof (Z.div_mod n 256 ltac:(lia)). lia.
Qed.

Lemma map_ok_inv x lo hi bs :
  _map x lo hi = Ok bs ->
  (lo <= x)%Q /\ (x <= hi)%Q /\ ~ (hi - lo == 0)%Q /\
  let c := py_round ((x - lo) / (hi - lo) * inject_Z 65535) in
  bs = [c / 256; c mod 256] /\ 0 <= c < 65536 /\ from_bytes_big bs = c.
Proof.
  unfold _map.
  destruct (Qle_bool lo x && Qle_bool x hi) eqn:E1; simpl; [|discriminate].
  apply andb_true_iff in E1 as [E1 E2]. apply Qle_bool_iff in E1, E2.
  destruct (Qeq_bool (hi - lo) 0) eqn:E3; [discriminate|].
  intros H. apply from_to_bytes2_unsigned in H.
  split; [exact E1|]. split; [exact E2|]. split; [|exact H].
  intros Heq. apply Qeq_bool_iff in Heq. congruence.
Qed.







(** X5: [_map] is monotone: on one range, a larger value never gets a
    smaller code. *)
Theorem map_monotone lo hi x y bx by_ :
  (x <= y)%Q -> _map x lo hi = Ok bx -> _map y lo hi = Ok by_ ->
  from_bytes_big bx <= from_bytes_big by_.
Proof.
  intros Hxy Hx Hy.
  destruct (map_ok_inv x lo hi bx Hx) as (Hlx & _ & Hw & _ & _ & Hcx).
  destruct (map_ok_inv y lo hi by_ Hy) as (_ & Hhy & _ & _ & _ & Hcy).
  rewrite Hcx, Hcy. apply py_round_mono.
  assert (Hpos : (0 < hi - lo)%Q) by lra.
  apply Qmult_le_compat_r; [|discriminate].
  unfold Qdiv. apply Qmult_le_compat_r; [lra|].
  apply Qlt_le_weak, Qinv_lt_0_compat, Hpos.
Qed.

(** ** Further properties of the exchange primitives *)

Lemma validate_ok_iff command data :
  _validate_parameters command data = Ok tt <->
    0 <= command <= 255 /\ List.length data = 2%nat /\ Forall (fun b => 0 <= b <= 255) data.
Proof.
  unfold _validate_parameters.
  destruct ((0 <=? command) && (command <=? 255)) eqn:E1;
    [apply andb_true_iff in E1 as [E1 E1']; apply Z.leb_le in E1, E1'
    |apply andb_false_iff in E1; rewrite !Z.leb_gt in E1]; simpl.
  2:{ split; [discriminate | lia]. }
  destruct (Nat.eqb (List.length data) 2) eqn:E2; simpl.
  2:{ apply Nat.eqb_neq in E2. split; [discriminate | intros (_ & H & _); contradiction]. }
  apply Nat.eqb_eq in E2.
  destruct (forallb is_byte data) eqn:E3; simpl.
  - split; [intros _|reflexivity]. split; [lia|]. split; [exact E2|].
    rewrite forallb_forall in E3. apply Forall_forall. intros b Hb. apply is_byte_iff, E3, Hb.
  - split; [discriminate|]. intros (_ & _ & H). exfalso.
    apply not_true_iff_false in E3. apply E3, forallb_forall.
    intros b Hb. apply is_byte_iff. rewrite Forall_forall in H. apply H, Hb.
Qed.

(** X6: the channel primitives check their arguments before any I/O.  A
    command outside [0, 255] or a data tuple whose length is not 2 raises
    [ValueError], a data value outside [0, 255] raises [BytesWarning], and a
    channel address outside [0, 255] raises [ValueError] from [bytearray];
    in each case [_communicate], [_query] and [_issue] write nothing and
    leave the device as it was, open or closed. *)
Theorem exchange_rejects_before_io respond ch cmd data d :
  ((~ (0 <= cmd <= 255) \/ List.length data <> 2%nat) ->
     _communicate respond ch cmd data d = (Raise ValueError, d) /\
     _query respond ch cmd data d = (Raise ValueError, d) /\
     _issue respond ch cmd data d = (Raise ValueError, d)) /\
  (0 <= cmd <= 255 -> List.length data = 2%nat -> ~ Forall (fun b => 0 <= b <= 255) data ->
     _communicate respond ch cmd data d = (Raise BytesWarning, d) /\
     _query respond ch cmd data d = (Raise BytesWarning, d) /\
     _issue respond ch cmd data d = (Raise BytesWarning, d)) /\
  (0 <= cmd <= 255 -> List.length data = 2%nat -> Forall (fun b => 0 <= b <= 255) data ->
   ~ (0 <= channel ch <= 255) ->
     _communicate respond ch cmd data d = (Raise ValueError, d) /\
     _query respond ch cmd data d = (Raise ValueError, d) /\
     _issue respond ch cmd data d = (Raise ValueError, d)).
Proof.
  unfold _communicate, _query, _issue, bind, lift.
  split; [|split].
  - intros H. unfold _validate_parameters.
    destruct ((0 <=? cmd) && (cmd <=? 255)) eqn:E1; simpl.
    + apply andb_true_iff in E1 as [E1 E1']; apply Z.leb_le in E1, E1'.
      destruct H as [H|H]; [lia|].
      replace (Nat.eqb (List.length data) 2) with false
        by (symmetry; apply Nat.eqb_neq; exact H).
      repeat split.
    + repeat split.
  - intros Hc Hl Hb. unfold _validate_parameters.
    replace ((0 <=? cmd) && (cmd <=? 255)) with true
      by (symmetry; apply andb_true_iff; split; apply Z.leb_le; lia).
    replace (Nat.eqb (List.length data) 2) with true by (symmetry; apply Nat.eqb_eq; exact Hl).
    replace (forallb is_byte data) with false.
    + repeat split.
    + symmetry. apply not_true_iff_false. intros E. apply Hb.
      rewrite forallb_forall in E. apply Forall_forall. intros b Hin. apply is_byte_iff, E, Hin.
  - intros Hc Hl Hb Hch.
    replace (_validate_parameters cmd data) with (Ok tt (A := unit))
      by (symmetry; apply validate_ok_iff; auto).
    assert (Hn : forall x, bytearray (channel ch :: x :: data) = Raise ValueError).
    { intros x. unfold bytearray. simpl.
      replace (is_byte (channel ch)) with false; [reflexivity|].
      symmetry. apply not_true_iff_false. rewrite is_byte_iff. exact Hch. }
    rewrite !Hn. repeat split.
Qed.

Lemma query_exchange respond ch cmd d0 d1 d :
  is_byte (channel ch) = true -> is_byte cmd = true ->
  is_byte d0 = true -> is_byte d1 = true -> is_open d = true ->
  _query respond ch cmd [d0; d1] d =
    (if acked respond [channel ch; cmd; d0; d1] then Ok [d0; d1] else Raise ConnectionError,
     mkDevice true (_channels d) [channel ch; cmd; d0; d1]
              (events d ++ exch respond [channel ch; cmd; d0; d1])).
Proof.
  intros Hc Hm H0 H1 Ho. destruct d as [o cs l ev]; simpl in Ho; subst o.
  pose proof Hm as Hm'. apply is_byte_iff in Hm'.
  unfold _query, _communicate, _validate_parameters, bytearray, bind, lift, write, read, ret, raise.
  simpl forallb. rewrite Hc, H0, H1, Hm.
  replace ((0 <=? cmd) && (cmd <=? 255)) with true
    by (symmetry; apply andb_true_iff; split; apply Z.leb_le; lia).
  cbn -[firstn]. unfold exch, acked, answer, ack, log, set_last_req. cbn -[firstn].
  rewrite <- app_assoc.
  destruct (bytes_eqb (firstn 4 (respond [channel ch; cmd; d0; d1])) [channel ch; 255; d0; d1])
    eqn:E; [apply bytes_eqb_spec in E; rewrite E|]; reflexivity.
Qed.


(** ** The nonvolatile-memory readers *)

Lemma bind_ok_inv {A B} (m : M A) (k : A -> M B) d x d' :
  bind m k d = (Ok x, d') -> exists a d1, m d = (Ok a, d1) /\ k a d1 = (Ok x, d').
Proof.
  unfold bind. destruct (m d) as [[a|e] d1]; [|discriminate]. intros H. eauto.
Qed.

Lemma lift_ok_inv {A} (r : result A) d a d1 : lift r d = (Ok a, d1) -> r = Ok a /\ d1 = d.
Proof. unfold lift. intros H; inversion H; auto. Qed.

Lemma bind_lift_ok {A B} (a : A) (k : A -> M B) d : bind (lift (Ok a)) k d = k a d.
Proof. reflexivity. Qed.

Lemma query_bind {B} respond ch cmd d0 d1 (k : bytes -> M B) d :
  is_byte (channel ch) = true -> is_byte cmd = true ->
  is_byte d0 = true -> is_byte d1 = true -> is_open d = true ->
  bind (_query respond ch cmd [d0; d1]) k d =
    if acked respond [channel ch; cmd; d0; d1] then
      k [d0; d1] (mkDevice true (_channels d) [channel ch; cmd; d0; d1]
                           (events d ++ exch respond [channel ch; cmd; d0; d1]))
    else (Raise ConnectionError,
          mkDevice true (_channels d) [channel ch; cmd; d0; d1]
                   (events d ++ exch respond [channel ch; cmd; d0; d1])).
Proof.
  intros Hc Hm H0 H1 Ho. unfold bind at 1. rewrite query_exchange by assumption.
  destruct (acked respond _); reflexivity.
Qed.

Lemma read_nvm_command : _command _Actions.READ_NONVOLATILE_MEMORY (PInt 0) = Ok 64.
Proof. reflexivity. Qed.

Lemma read_setting_value respond address ch d :
  match fst (read_setting respond address ch d) with
  | Ok v => v = _unmap [0; address] V_MIN V_MAX
  | Raise _ => True
  end.
Proof.
  destruct (read_setting respond address ch d) as [[v|e] d'] eqn:E; [|exact I]. simpl.
  unfold read_setting in E.
  apply bind_ok_inv in E as (cmd & d1 & _ & E).
  apply bind_ok_inv in E as (r & d2 & Hq & E).
  apply query_returns_request_data in Hq. subst r.
  unfold ret in E. inversion E. reflexivity.
Qed.

(** X8: for a channel address on an open port, [firmware] and [number]
    each make one exchange, the nonvolatile-memory read [(channel, 0x40,
    0x00, 0xF2)] or [(channel, 0x40, 0x00, 0xFA)]; acknowledged, they return
    [0xF2] and [0xFA], the address they asked for, and otherwise raise
    [ConnectionError]. *)
Theorem firmware_and_number_exchange respond ch d :
  0 <= channel ch <= 255 -> is_open d = true ->
  firmware respond ch d =
    (if acked respond [channel ch; 64; 0; 242] then Ok 242 else Raise ConnectionError,
     mkDevice true (_channels d) [channel ch; 64; 0; 242]
              (events d ++ exch respond [channel ch; 64; 0; 242])) /\
  number respond ch d =
    (if acked respond [channel ch; 64; 0; 250] then Ok 250 else Raise ConnectionError,
     mkDevice true (_channels d) [channel ch; 64; 0; 250]
              (events d ++ exch respond [channel ch; 64; 0; 250])).
Proof.
  intros Hc Ho.
  assert (Bc : is_byte (channel ch) = true) by (apply is_byte_iff; lia).
  unfold firmware, number. rewrite !read_nvm_command, !bind_lift_ok.
  rewrite !query_bind by (reflexivity || assumption).
  split; destruct (acked respond _); reflexivity.
Qed.

(** X9: on an open port, [channel_creation_date] reads address [0xF4], and
    only if that read is acknowledged, address [0xF6]; with both
    acknowledged it returns [0x00F400F6], the concatenation of the two
    addresses, and a refused read raises [ConnectionError] at once. *)
Theorem creation_date_exchange respond ch d :
  0 <= channel ch <= 255 -> is_open d = true ->
  channel_creation_date respond ch d =
    if acked respond [channel ch; 64; 0; 244] then
      (if acked respond [channel ch; 64; 0; 246] then Ok (Z.lor (Z.shiftl 244 16) 246)
       else Raise ConnectionError,
       mkDevice true (_channels d) [channel ch; 64; 0; 246]
                (events d ++ exch respond [channel ch; 64; 0; 244]
                          ++ exch respond [channel ch; 64; 0; 246]))
    else
      (Raise ConnectionError,
       mkDevice true (_channels d) [channel ch; 64; 0; 244]
                (events d ++ exch respond [channel ch; 64; 0; 244])).
Proof.
  intros Hc Ho.
  assert (Bc : is_byte (channel ch) = true) by (apply is_byte_iff; lia).
  unfold channel_creation_date. rewrite read_nvm_command, bind_lift_ok.
  rewrite query_bind by (reflexivity || assumption).
  destruct (acked respond [channel ch; 64; 0; 244]); [|reflexivity].
  rewrite bind_lift_ok, query_bind by (reflexivity || assumption). cbn [_channels events].
  rewrite <- app_assoc.
  destruct (acked respond [channel ch; 64; 0; 246]); reflexivity.
Qed.

(** X10: whatever the box has stored and whatever state the device is in,
    the nonvolatile-memory readers can only return the value their own
    request encodes, since [_query] hands back the request's data bytes:
    [firmware] is [0xF2], [number] [0xFA], [channel_creation_date]
    [0x00F400F6], [auto_tune_range] the decoding of addresses 0 and 2, and
    [auto_tune_bias], [auto_tune_offset], [auto_tune_flux] the decoding of
    addresses 4, 6 and 8; otherwise they raise. *)
Theorem nvm_readers_return_own_address respond ch d :
  match fst (firmware respond ch d) with Ok n => n = 242 | Raise _ => True end /\
  match fst (number respond ch d) with Ok n => n = 250 | Raise _ => True end /\
  match fst (channel_creation_date respond ch d) with
  | Ok n => n = 15991030 | Raise _ => True end /\
  match fst (auto_tune_range respond ch d) with
  | Ok r => r = (_unmap [0; 0] V_MIN V_MAX, _unmap [0; 2] V_MIN V_MAX) | Raise _ => True end /\
  match fst (auto_tune_bias respond ch d) with
  | Ok v => v = _unmap [0; 4] V_MIN V_MAX | Raise _ => True end /\
  match fst (auto_tune_offset respond ch d) with
  | Ok v => v = _unmap [0; 6] V_MIN V_MAX | Raise _ => True end /\
  match fst (auto_tune_flux respond ch d) with
  | Ok v => v = _unmap [0; 8] V_MIN V_MAX | Raise _ => True end.
Proof.
  split; [|split; [|split; [|split; [|split; [|split]]]]];
    try apply read_setting_value.
  - destruct (firmware respond ch d) as [[n|e] d'] eqn:E; [|exact I]. simpl.
    unfold firmware in E.
    apply bind_ok_inv in E as (cmd & d1 & _ & E).
    apply bind_ok_inv in E as (r & d2 & Hq & E).
    apply query_returns_request_data in Hq. subst r.
    unfold ret in E. inversion E. reflexivity.
  - destruct (number respond ch d) as [[n|e] d'] eqn:E; [|exact I]. simpl.
    unfold number in E.
    apply bind_ok_inv in E as (cmd & d1 & _ & E).
    apply bind_ok_inv in E as (r & d2 & Hq & E).
    apply query_returns_request_data in Hq. subst r.
    unfold ret in E. inversion E. reflexivity.
  - destruct (channel_creation_date respond ch d) as [[n|e] d'] eqn:E; [|exact I]. simpl.
    unfold channel_creation_date in E.
    apply bind_ok_inv in E as (cmd & d1 & _ & E).
    apply bind_ok_inv in E as (r1 & d2 & Hq1 & E).
    apply bind_ok_inv in E as (cmd2 & d3 & _ & E).
    apply bind_ok_inv in E as (r2 & d4 & Hq2 & E).
    apply query_returns_request_data in Hq1, Hq2. subst r1 r2.
    unfold ret in E. inversion E. reflexivity.
  - destruct (auto_tune_range respond ch d) as [[n|e] d'] eqn:E; [|exact I]. simpl.
    unfold auto_tune_range in E.
    apply bind_ok_inv in E as (cmd & d1 & _ & E).
    apply bind_ok_inv in E as (r1 & d2 & Hq1 & E).
    apply bind_ok_inv in E as (cmd2 & d3 & _ & E).
    apply bind_ok_inv in E as (r2 & d4 & Hq2 & E).
    apply query_returns_request_data in Hq1, Hq2. subst r1 r2.
    unfold ret in E. inversion E. reflexivity.
Qed.

(** ** Further properties of the channel operations *)

Lemma performs_bind_raise {A B} respond (m : M A) (k : A -> M B) r1 r2 a e :
  performs respond m r1 a -> raises_after respond (k a) r2 e ->
  raises_after respond (bind m k) (r1 ++ r2) e.
Proof.
  intros H1 H2 d Ho. unfold bind. rewrite (H1 d Ho).
  rewrite H2 by reflexivity. simpl. f_equal. f_equal.
  - rewrite last_app_default; reflexivity.
  - rewrite flat_map_app, app_assoc; reflexivity.
Qed.

Lemma raises_after_now {A} respond (m : M A) e :
  (forall d, m d = (Raise e, d)) -> raises_after respond m [] e.
Proof.
  intros H [o cs l ev] Ho; simpl in Ho; subst o. rewrite H. simpl. rewrite app_nil_r. reflexivity.
Qed.

Lemma send_float_out_of_range respond ch cmd v lo hi d :
  ~ ((lo <= v)%Q /\ (v <= hi)%Q) -> _send_float respond ch cmd v lo hi d = (Raise ValueError, d).
Proof.
  intros H. unfold _send_float.
  destruct (Qle_bool lo v && Qle_bool v hi) eqn:E; [|reflexivity].
  exfalso. apply andb_true_iff in E as [E1 E2]. apply Qle_bool_iff in E1, E2. tauto.
Qed.

Lemma lacks1_lacks3 ch : lacks ch 1 = false -> lacks ch 3 = false.
Proof.
  unfold lacks. intros H. apply Z.eqb_neq in H. apply Z.eqb_neq. intros H3. apply H.
  change 1 with (Z.land 3 1). rewrite Z.land_assoc, H3. reflexivity.
Qed.

(** X11: on a channel with capability bit 0, [heat_squid] with a duration
    in [0, 0xFFFF] ms makes one exchange, [(channel, 0x32, hi, lo)] with the
    duration big-endian, and returns whether it was acknowledged; a
    duration outside that range raises [ValueError] before any I/O. *)
Theorem heat_squid_behaviour respond ch dur :
  0 <= channel ch <= 255 -> lacks ch 1 = false ->
  (0 <= dur <= 65535 ->
     performs respond (heat_squid respond ch dur) [[channel ch; 50; dur / 256; dur mod 256]]
              (acked respond [channel ch; 50; dur / 256; dur mod 256])) /\
  (~ (0 <= dur <= 65535) -> forall d, heat_squid respond ch dur d = (Raise ValueError, d)).
Proof.
  intros Hc Hl. unfold heat_squid. rewrite Hl. split.
  - intros Hd.
    replace ((0 <=? dur) && (dur <=? 65535)) with true
      by (symmetry; apply andb_true_iff; split; apply Z.leb_le; lia).
    simpl negb. cbv iota.
    eapply performs_bind_lift; [reflexivity|].
    apply (performs_bind_lift _ _ [dur / 256; dur mod 256]).
    + unfold to_bytes2_unsigned.
      replace ((0 <=? dur) && (dur <? 65536)) with true
        by (symmetry; apply andb_true_iff; split; [apply Z.leb_le | apply Z.ltb_lt]; lia).
      reflexivity.
    + assert (dur / 256 < 256) by (apply Z.div_lt_upper_bound; lia).
      assert (0 <= dur / 256) by (apply Z.div_pos; lia).
      pose proof (Z.mod_pos_bound dur 256 ltac:(lia)).
      apply issue_performs; apply is_byte_iff; lia.
  - intros Hd d.
    replace ((0 <=? dur) && (dur <=? 65535)) with false; [reflexivity|].
    symmetry. apply not_true_iff_false. rewrite andb_true_iff, !Z.leb_le. exact Hd.
Qed.

(** X12: on a channel with capability bit 0, [change_ac_flux_amplitude_by]
    returns [True] for a zero change without any I/O, raises [ValueError]
    before any I/O for a change outside [-0x8000, 0x7FFF], and otherwise makes
    one exchange [(channel, 0x60, hi, lo)] carrying the change as a 16-bit
    two's-complement big-endian word, returning whether it was acknowledged. *)
Theorem change_amplitude_behaviour respond ch x :
  0 <= channel ch <= 255 -> lacks ch 1 = false ->
  (forall d, change_ac_flux_amplitude_by respond ch 0 d = (Ok true, d)) /\
  (~ (-32768 <= x < 32768) -> forall d, change_ac_flux_amplitude_by respond ch x d = (Raise ValueError, d)) /\
  (-32768 <= x < 32768 -> x <> 0 ->
     performs respond (change_ac_flux_amplitude_by respond ch x)
       [[channel ch; 96; (x mod 65536) / 256; x mod 256]]
       (acked respond [channel ch; 96; (x mod 65536) / 256; x mod 256]) /\
     ((x mod 65536) / 256) * 256 + x mod 256 = (if x <? 0 then x + 65536 else x)).
Proof.
  intros Hc Hl. unfold change_ac_flux_amplitude_by. rewrite Hl.
  split; [|split].
  - intros d. reflexivity.
  - intros Hx d.
    replace ((-32768 <=? x) && (x <? 32768)) with false; [reflexivity|].
    symmetry. apply not_true_iff_false. rewrite andb_true_iff, Z.leb_le, Z.ltb_lt. exact Hx.
  - intros Hx Hz.
    replace ((-32768 <=? x) && (x <? 32768)) with true
      by (symmetry; apply andb_true_iff; split; [apply Z.leb_le | apply Z.ltb_lt]; lia).
    replace (x =? 0) with false by (symmetry; apply Z.eqb_neq; exact Hz).
    simpl negb. cbv iota.
    pose proof (Z.mod_pos_bound x 65536 ltac:(lia)) as Hm.
    assert (Hhi : (x mod 65536) / 256 < 256) by (apply Z.div_lt_upper_bound; lia).
    assert (Hhi0 : 0 <= (x mod 65536) / 256) by (apply Z.div_pos; lia).
    pose proof (Z.mod_pos_bound x 256 ltac:(lia)) as Hlo.
    assert (Hmm : (x mod 65536) mod 256 = x mod 256).
    { Z.div_mod_to_equations. lia. }
    split.
    + eapply performs_bind_lift; [reflexivity|].
      apply (performs_bind_lift _ _ [(x mod 65536) / 256; x mod 256]).
      * unfold to_bytes2_signed.
        replace ((-32768 <=? x) && (x <? 32768)) with true
          by (symmetry; apply andb_true_iff; split; [apply Z.leb_le | apply Z.ltb_lt]; lia).
        reflexivity.
      * apply issue_performs; apply is_byte_iff; lia.
    + rewrite <- Hmm. clear Hm Hhi Hhi0 Hlo Hmm. destruct (Z.ltb_spec x 0); Z.div_mod_to_equations; lia.
Qed.

Lemma dac_command which : _command _Actions.DAC_OUTPUT (PDAC which) = Ok (8 + dac_value which).
Proof. destruct which; reflexivity. Qed.

(** X13: on a channel with capability bit 0, the DAC setters [dc_bias],
    [bias], [offset] and [flux] (and [detector_bias]) raise [ValueError]
    before any I/O for a value outside [[-2.5, 2.5]] ([[0, 250]] uA), and
    otherwise make one exchange [(channel, 0x08 | output, hi, lo)] with the
    value's [_map] code, returning whether it was acknowledged. *)
Theorem dac_setters_range respond which ch v w :
  0 <= channel ch <= 255 -> lacks ch 1 = false ->
  (~ ((V_MIN <= v)%Q /\ (v <= V_MAX)%Q) ->
     forall d, dac_setter respond which ch v d = (Raise ValueError, d)) /\
  ((V_MIN <= v)%Q -> (v <= V_MAX)%Q ->
     exists b0 b1, _map v V_MIN V_MAX = Ok [b0; b1] /\
       performs respond (dac_setter respond which ch v)
         [[channel ch; 8 + dac_value which; b0; b1]]
         (acked respond [channel ch; 8 + dac_value which; b0; b1])) /\
  (~ ((0 <= w)%Q /\ (w <= 250)%Q) ->
     forall d, detector_bias respond ch w d = (Raise ValueError, d)) /\
  ((0 <= w)%Q -> (w <= 250)%Q ->
     exists b0 b1, _map w 0 250 = Ok [b0; b1] /\
       performs respond (detector_bias respond ch w) [[channel ch; 9; b0; b1]]
         (acked respond [channel ch; 9; b0; b1])).
Proof.
  intros Hc Hl. pose proof (lacks1_lacks3 ch Hl) as Hl3.
  assert (Bc : is_byte (channel ch) = true) by (apply is_byte_iff; lia).
  unfold dac_setter, detector_bias. rewrite Hl, Hl3, !dac_command. cbv iota.
  split; [|split; [|split]].
  - intros Hv d. rewrite bind_lift_ok. apply send_float_out_of_range, Hv.
  - intros H1 H2.
    destruct (map_in_range V_MIN V_MAX v ltac:(vm_compute; reflexivity) H1 H2)
      as (b0 & b1 & Hm & B0 & B1).
    exists b0, b1. split; [exact Hm|].
    eapply performs_bind_lift; [reflexivity|].
    apply send_float_performs; try assumption.
    + apply andb_true_iff; split; apply Qle_bool_iff; assumption.
    + apply is_byte_iff. destruct which; simpl; lia.
  - intros Hv d. rewrite bind_lift_ok. apply send_float_out_of_range, Hv.
  - intros H1 H2.
    destruct (map_in_range 0 250 w ltac:(vm_compute; reflexivity) H1 H2)
      as (b0 & b1 & Hm & B0 & B1).
    exists b0, b1. split; [exact Hm|].
    eapply performs_bind_lift; [reflexivity|].
    apply send_float_performs; try assumption; [|reflexivity].
    apply andb_true_iff; split; apply Qle_bool_iff; assumption.
Qed.


Lemma write_nvm_command : _command _Actions.WRITE_NONVOLATILE_MEMORY (PInt 0) = Ok 72.
Proof. reflexivity. Qed.

Lemma raises_bind {A B} respond (m : M A) (k : A -> M B) r e :
  raises_after respond m r e -> raises_after respond (bind m k) r e.
Proof. intros H d Ho. unfold bind. rewrite (H d Ho). reflexivity. Qed.

Lemma raises_after_conv {A} respond (m : M A) r r' e :
  raises_after respond m r e -> r = r' -> raises_after respond m r' e.
Proof. intros H ->; exact H. Qed.

(** X15: [auto_tune_squid] checks each bias only when its step comes up.
    With a start bias outside [[-2.5, 2.5]], it first sends offset 0, flux 0,
    FLL mode, AC flux off, test input off and the write of the start-bias
    address, then raises [ValueError]; with a valid start bias and an end
    bias outside the range, it also sends the start bias and the end-bias
    address first.  Nothing sent before is undone. *)
Theorem autotune_rejects_bias_midway respond ch s e :
  0 <= channel ch <= 255 -> lacks ch 1 = false ->
  (~ ((V_MIN <= s)%Q /\ (s <= V_MAX)%Q) ->
     raises_after respond (auto_tune_squid respond ch s e)
       (firstn 6 (autotune_frames (channel ch) [] [])) ValueError) /\
  ((V_MIN <= s)%Q -> (s <= V_MAX)%Q -> ~ ((V_MIN <= e)%Q /\ (e <= V_MAX)%Q) ->
     raises_after respond (auto_tune_squid respond ch s e)
       (firstn 8 (autotune_frames (channel ch) (encode_bias s) [])) ValueError).
Proof.
  intros Hc Hl.
  assert (Bc : is_byte (channel ch) = true) by (apply is_byte_iff; lia).
  unfold auto_tune_squid. rewrite Hl. cbv iota.
  split.
  - intros Hs.
    eapply raises_after_conv.
    + eapply performs_bind_raise; [apply offset_zero_performs; exact Bc|].
      eapply performs_bind_raise; [apply flux_zero_performs; exact Bc|].
      eapply performs_bind_raise; [apply reset_fll_performs; exact Bc|].
      eapply performs_bind_raise; [apply ac_flux_performs; exact Bc|].
      eapply performs_bind_raise; [apply test_in_performs; exact Bc|].
      eapply performs_bind_raise.
      { eapply performs_bind_lift; [reflexivity|].
        apply issue_performs; (reflexivity || exact Bc). }
      apply raises_bind. apply raises_after_now. intros d.
      rewrite write_nvm_command, bind_lift_ok. apply send_float_out_of_range, Hs.
    + unfold gate. rewrite Hl. reflexivity.
  - intros Hs1 Hs2 He.
    destruct (map_in_range V_MIN V_MAX s ltac:(vm_compute; reflexivity) Hs1 Hs2)
      as (s0 & s1 & Hms & S0 & S1).
    eapply raises_after_conv.
    + eapply performs_bind_raise; [apply offset_zero_performs; exact Bc|].
      eapply performs_bind_raise; [apply flux_zero_performs; exact Bc|].
      eapply performs_bind_raise; [apply reset_fll_performs; exact Bc|].
      eapply performs_bind_raise; [apply ac_flux_performs; exact Bc|].
      eapply performs_bind_raise; [apply test_in_performs; exact Bc|].
      eapply performs_bind_raise.
      { eapply performs_bind_lift; [reflexivity|].
        apply issue_performs; (reflexivity || exact Bc). }
      eapply performs_bind_raise.
      { eapply performs_bind_lift; [reflexivity|].
        apply (send_float_performs respond ch _ s _ _ s0 s1); try (reflexivity || assumption).
        apply andb_true_iff; split; apply Qle_bool_iff; assumption. }
      eapply performs_bind_raise.
      { eapply performs_bind_lift; [reflexivity|].
        apply issue_performs; (reflexivity || exact Bc). }
      apply raises_bind. apply raises_after_now. intros d.
      rewrite write_nvm_command, bind_lift_ok. apply send_float_out_of_range, He.
    + unfold gate, encode_bias. rewrite Hl, Hms. reflexivity.
Qed.

(** X16: every opcode [_command] returns is a byte whose upper five bits
    are the action, one of [1..12]; [SET_DETECTOR_HEATER_CURRENT] (13) and
    every other action get [ValueError], whatever the parameter. *)
Theorem command_opcode_layout a p :
  (forall op, _command a p = Ok op -> 1 <= a <= 12 /\ Z.shiftr op 3 = a /\ 0 <= op <= 255) /\
  (~ (1 <= a <= 12) -> _command a p = Raise ValueError).
Proof.
  assert (Hok : forall op, _command a p = Ok op -> 1 <= a <= 12 /\ Z.shiftr op 3 = a /\ 0 <= op <= 255).
  { intros op H. unfold _command in H.
    destruct ((a =? _Actions.DAC_OUTPUT) && is_DACOutput p) eqn:E1.
    { apply andb_true_iff in E1 as [E1 E2]. apply Z.eqb_eq in E1; subst.
      destruct p as [|dv|]; try discriminate. injection H as <-.
      destruct dv; (repeat split; try reflexivity; cbv; discriminate). }
    destruct (existsb (Z.eqb a) _) eqn:E2.
    { apply existsb_exists in E2 as (x & Hin & Hx). apply Z.eqb_eq in Hx; subst.
      injection H as <-. simpl in Hin.
      repeat destruct Hin as [<-|Hin]; try contradiction; (repeat split; try reflexivity; cbv; discriminate). }
    destruct ((a =? _Actions.SET_FLL_MODE) && is_FLLMode p) eqn:E3.
    { apply andb_true_iff in E3 as [E3 E4]. apply Z.eqb_eq in E3; subst.
      destruct p as [| |f]; try discriminate. injection H as <-.
      destruct f; (repeat split; try reflexivity; cbv; discriminate). }
    destruct (a =? _Actions.SWITCH_AC_FLUX) eqn:E5.
    { apply Z.eqb_eq in E5; subst. injection H as <-. (repeat split; try reflexivity; cbv; discriminate). }
    destruct (a =? _Actions.SQUID_HEATER_SWITCH) eqn:E6.
    { apply Z.eqb_eq in E6; subst. injection H as <-. (repeat split; try reflexivity; cbv; discriminate). }
    destruct ((a =? _Actions.SWITCH_FEEDBACK) && existsb (Z.eqb (param_value p)) [0; 1]) eqn:E7;
      [|discriminate].
    apply andb_true_iff in E7 as [E7 E8]. apply Z.eqb_eq in E7; subst.
    injection H as <-. simpl in E8.
    destruct (Z.eqb_spec (param_value p) 0) as [->|_]; [(repeat split; try reflexivity; cbv; discriminate)|].
    destruct (Z.eqb_spec (param_value p) 1) as [->|_]; [(repeat split; try reflexivity; cbv; discriminate) | discriminate]. }
  split; [exact Hok|].
  intros Ha. destruct (_command a p) as [op|e] eqn:E.
  - exfalso. apply Ha, (Hok op eq_refl).
  - unfold _command in E.
    repeat match type of E with
    | context [if ?b then _ else _] => destruct b; [discriminate|]
    end.
    congruence.
Qed.

(** ** The port stays open and the channel dict untouched *)

Lemma stays_ret {A} (a : A) : stays (ret a).
Proof. intros d Ho. split; [exact Ho | reflexivity]. Qed.

Lemma stays_raise {A} e : stays (raise (A := A) e).
Proof. intros d Ho. split; [exact Ho | reflexivity]. Qed.

Lemma stays_lift {A} (r : result A) : stays (lift r).
Proof. intros d Ho. split; [exact Ho | reflexivity]. Qed.

Lemma stays_bind {A B} (m : M A) (k : A -> M B) :
  stays m -> (forall a, stays (k a)) -> stays (bind m k).
Proof.
  intros Hm Hk d Ho. unfold bind.
  destruct (Hm d Ho) as [Ho1 Hc1]. destruct (m d) as [[a|e] d1]; simpl in *.
  - destruct (Hk a d1 Ho1) as [Ho2 Hc2]. split; [exact Ho2 | congruence].
  - split; assumption.
Qed.

Lemma stays_write data : stays (write data).
Proof. intros [o cs l ev] Ho; simpl in Ho; subst o. split; reflexivity. Qed.

Lemma stays_read respond n : stays (read respond n).
Proof. intros [o cs l ev] Ho; simpl in Ho; subst o. split; reflexivity. Qed.

Lemma stays_ignore_exn (m : M unit) : stays m -> stays (ignore_exn m).
Proof.
  intros Hm d Ho. unfold ignore_exn. destruct (Hm d Ho) as [H1 H2].
  destruct (m d) as [[u|e] d1]; split; assumption.
Qed.

Create HintDb stays_db.
#[local] Hint Resolve stays_ret stays_raise stays_lift stays_write stays_read : stays_db.

Ltac stays_steps :=
  repeat match goal with
  | |- stays (if ?b then _ else _) => destruct b
  | |- stays (bind _ _) => apply stays_bind; [| intros ]
  | |- stays _ => solve [auto with stays_db]
  end.

Lemma stays_communicate respond ch cmd data : stays (_communicate respond ch cmd data).
Proof. unfold _communicate. stays_steps. Qed.
#[local] Hint Resolve stays_communicate : stays_db.

Lemma stays_issue respond ch cmd data : stays (_issue respond ch cmd data).
Proof. unfold _issue. stays_steps. Qed.
#[local] Hint Resolve stays_issue : stays_db.

Lemma stays_send_float respond ch cmd v lo hi : stays (_send_float respond ch cmd v lo hi).
Proof. unfold _send_float. stays_steps. Qed.
#[local] Hint Resolve stays_send_float : stays_db.

Lemma stays_chan_ops respond ch :
  (forall x, stays (change_ac_flux_amplitude_by respond ch x)) /\
  (forall on, stays (ac_flux respond ch on)) /\
  (forall on, stays (reset_fll respond ch on)) /\
  (forall on, stays (test_in respond ch on)) /\
  (forall which v, stays (dac_setter respond which ch v)) /\
  (forall v, stays (detector_bias respond ch v)).
Proof.
  unfold change_ac_flux_amplitude_by, ac_flux, reset_fll, test_in, dac_setter, detector_bias.
  split; [intros x|split; [intros on|split; [intros on|split; [intros on|split; [intros which v|intros v]]]]]; stays_steps.
Qed.

Lemma stays_chan_del respond ch : stays (chan_del respond ch).
Proof.
  destruct (stays_chan_ops respond ch) as (H1 & H2 & H3 & H4 & H5 & H6).
  unfold chan_del, dc_bias, bias, offset, flux.
  repeat (apply stays_bind; [solve [auto with stays_db] | intros]). apply stays_ret.
Qed.

Lemma stays_chan_init respond c caps : stays (chan_init respond c caps).
Proof.
  destruct (stays_chan_ops respond (mkChan c caps)) as (H1 & H2 & H3 & H4 & H5 & H6).
  unfold chan_init, dc_bias, bias, offset, flux.
  repeat (apply stays_bind; [solve [auto with stays_db] | intros]). apply stays_ret.
Qed.

Lemma chan_init_ok_inv respond c caps d ch d' :
  chan_init respond c caps d = (Ok ch, d') -> ch = mkChan c caps.
Proof.
  unfold chan_init. intros E.
  do 8 (apply bind_ok_inv in E as (? & ? & _ & E)).
  unfold ret in E. inversion E. reflexivity.
Qed.

Lemma iter_ignore_stays {A} (f : A -> M unit) xs d :
  (forall x, stays (f x)) -> is_open d = true ->
  exists d', iter (fun x => ignore_exn (f x)) xs d = (Ok tt, d') /\
             is_open d' = true /\ _channels d' = _channels d.
Proof.
  intros Hf. revert d. induction xs as [|x xs IH]; intros d Ho.
  - exists d. auto.
  - simpl. unfold bind at 1, ignore_exn at 1.
    destruct (Hf x d Ho) as [Ho1 Hc1].
    destruct (f x d) as [[u|e] d1]; simpl in Ho1, Hc1;
      (destruct (IH d1 Ho1) as (d' & Hrun & Ho' & Hc'); exists d';
       split; [exact Hrun | split; [exact Ho' | congruence]]).
Qed.

Lemma clear_channels_empties respond d :
  is_open d = true ->
  exists d', clear_channels respond d = (Ok tt, d') /\ is_open d' = true /\ _channels d' = [].
Proof.
  intros Ho. unfold clear_channels.
  destruct (iter_ignore_stays (fun kc => chan_del respond (snd kc)) (_channels d) (set_channels [] d))
    as (d' & Hrun & Ho' & Hc').
  - intros kc. apply stays_chan_del.
  - exact Ho.
  - exists d'. auto.
Qed.

(** X17: [close] never raises: whatever the box answers and whatever the
    channels are, it ends with the port closed, and a device that was open
    is left with no channels. *)
Theorem close_never_raises respond d :
  exists d', close_ respond d = (Ok tt, d') /\ is_open d' = false /\
    (is_open d = true -> _channels d' = []).
Proof.
  unfold close_. destruct (is_open d) eqn:Ho.
  - destruct (clear_channels_empties respond d Ho) as (d1 & Hc & Ho1 & Hch1).
    unfold bind at 1. rewrite Hc.
    rewrite (bind_performs respond _ _ _ tt d1 (performs_exchange_global respond _) Ho1).
    rewrite (bind_performs respond _ _ _ tt _ (performs_exchange_global respond _)) by reflexivity.
    unfold port_close. simpl. eexists. split; [reflexivity|]. split; [reflexivity|].
    intros _. simpl. exact Hch1.
  - unfold port_close. rewrite Ho. exists d. split; [reflexivity|]. split; [exact Ho|].
    discriminate.
Qed.

(** ** The channel dict [open] builds *)

Lemma dict_set_fresh {V} k (v : V) l :
  ~ In k (map fst l) -> dict_set k v l = l ++ [(k, v)].
Proof.
  induction l as [|[k' v'] l IH]; intros H; [reflexivity|].
  simpl in *. destruct (Z.eqb_spec k k') as [->|Hne].
  - exfalso. apply H. left. reflexivity.
  - rewrite IH; [reflexivity|]. intros Hin; apply H; right; exact Hin.
Qed.

Lemma scan_channel_ok_inv respond c d u d' :
  is_open d = true -> scan_channel respond c d = (Ok u, d') ->
  is_open d' = true /\
  (_channels d' = _channels d \/
   exists caps, _channels d' = dict_set c (mkChan c caps) (_channels d)).
Proof.
  intros Ho E. unfold scan_channel in E.
  apply bind_ok_inv in E as (req & d1 & E1 & E). apply lift_ok_inv in E1 as [_ ->].
  apply bind_ok_inv in E as (u1 & d2 & E2 & E).
  destruct (stays_write req d Ho) as [Ho2 Hc2]. rewrite E2 in Ho2, Hc2. simpl in Ho2, Hc2.
  apply bind_ok_inv in E as (resp & d3 & E3 & E).
  destruct (stays_read respond 4 d2 Ho2) as [Ho3 Hc3]. rewrite E3 in Ho3, Hc3. simpl in Ho3, Hc3.
  destruct (nth_error resp 1) as [b|]; [|discriminate].
  destruct (b =? 255).
  - apply bind_ok_inv in E as (ch & d4 & E4 & E).
    pose proof (chan_init_ok_inv _ _ _ _ _ _ E4) as ->.
    destruct (stays_chan_init respond c (from_bytes_big (skipn 2 resp)) d3 Ho3) as [Ho4 Hc4].
    rewrite E4 in Ho4, Hc4. simpl in Ho4, Hc4.
    inversion E; subst. cbn [_channels set_channels]. split; [exact Ho4|]. right.
    exists (from_bytes_big (skipn 2 resp)). rewrite Hc4, Hc3, Hc2. reflexivity.
  - destruct (negb (bytes_eqb resp req)); [discriminate|].
    inversion E; subst. split; [exact Ho3 | left; congruence].
Qed.

Lemma SSorted_snoc l c :
  StronglySorted Z.lt l -> (forall k, In k l -> k < c) -> StronglySorted Z.lt (l ++ [c]).
Proof.
  induction l as [|x l IH]; intros Hs Hlt; simpl.
  - constructor; constructor.
  - inversion Hs as [|? ? Hs' Hf]; subst. constructor.
    + apply IH; [exact Hs'|]. intros k Hk; apply Hlt; right; exact Hk.
    + apply Forall_app. split; [exact Hf|]. constructor; [apply Hlt; left; reflexivity | constructor].
Qed.

Lemma scan_iter_sorted respond L d d' :
  iter (scan_channel respond) L d = (Ok tt, d') -> is_open d = true ->
  StronglySorted Z.lt L -> StronglySorted Z.lt (map fst (_channels d)) ->
  (forall k x, In k (map fst (_channels d)) -> In x L -> k < x) ->
  (forall kc, In kc (_channels d) -> channel (snd kc) = fst kc) ->
  is_open d' = true /\ StronglySorted Z.lt (map fst (_channels d')) /\
  (forall kc, In kc (_channels d') -> channel (snd kc) = fst kc) /\
  (forall k, In k (map fst (_channels d')) -> In k (map fst (_channels d)) \/ In k L).
Proof.
  revert d. induction L as [|c L IH]; intros d E Ho HL Hs Hlt Hch.
  - simpl in E. inversion E; subst. split; [exact Ho|]. split; [exact Hs|].
    split; [exact Hch|]. intros k Hk; left; exact Hk.
  - simpl in E. apply bind_ok_inv in E as (u & d1 & E1 & E).
    inversion HL as [|? ? HL' HfL]; subst.
    destruct (scan_channel_ok_inv respond c d u d1 Ho E1) as [Ho1 Hc1].
    assert (Hcnot : forall k, In k (map fst (_channels d)) -> k < c)
      by (intros k Hk; apply Hlt; [exact Hk | left; reflexivity]).
    assert (Hlt' : forall x, In x L -> c < x)
      by (intros x Hx; rewrite Forall_forall in HfL; apply HfL, Hx).
    assert (Inv : StronglySorted Z.lt (map fst (_channels d1)) /\
                  (forall k x, In k (map fst (_channels d1)) -> In x L -> k < x) /\
                  (forall kc, In kc (_channels d1) -> channel (snd kc) = fst kc) /\
                  (forall k, In k (map fst (_channels d1)) -> In k (map fst (_channels d)) \/ k = c)).
    { destruct Hc1 as [Hc1 | (caps & Hc1)]; rewrite Hc1.
      - split; [exact Hs|]. split.
        + intros k x Hk Hx. apply Hlt; [exact Hk | right; exact Hx].
        + split; [exact Hch|]. intros k Hk; left; exact Hk.
      - rewrite dict_set_fresh by (intros Hin; specialize (Hcnot c Hin); lia).
        rewrite map_app. simpl. split; [apply SSorted_snoc; assumption|]. split; [|split].
        + intros k x Hk Hx. apply in_app_or in Hk as [Hk|[<-|[]]].
          * apply Hlt; [exact Hk | right; exact Hx].
          * apply Hlt', Hx.
        + intros kc Hkc. apply in_app_or in Hkc as [Hkc|[<-|[]]]; [apply Hch, Hkc | reflexivity].
        + intros k Hk. apply in_app_or in Hk as [Hk|[<-|[]]]; [left; exact Hk | right; reflexivity]. }
    destruct Inv as (Hs1 & Hlt1 & Hch1 & Hk1).
    destruct (IH d1 E Ho1 HL' Hs1 Hlt1 Hch1) as (Ho' & Hs' & Hch' & Hk').
    split; [exact Ho'|]. split; [exact Hs'|]. split; [exact Hch'|].
    intros k Hk. destruct (Hk' k Hk) as [Hk2|Hk2].
    + destruct (Hk1 k Hk2) as [Hk3 | ->]; [left; exact Hk3 | right; left; reflexivity].
    + right; right; exact Hk2.
Qed.

Lemma SSorted_seq s n : StronglySorted Z.lt (map Z.of_nat (seq s n)).
Proof.
  revert s. induction n as [|n IH]; intros s; simpl; constructor.
  - apply IH.
  - apply Forall_forall. intros x Hx. apply in_map_iff in Hx as (m & <- & Hm).
    apply in_seq in Hm. lia.
Qed.

Lemma SSorted_ADDRESSES : StronglySorted Z.lt ADDRESSES.
Proof. apply SSorted_seq. Qed.

Lemma bind_clear_channels {B} respond (k : unit -> M B) d :
  is_open d = true ->
  exists d1, is_open d1 = true /\ _channels d1 = [] /\ bind (clear_channels respond) k d = k tt d1.
Proof.
  intros Ho. destruct (clear_channels_empties respond d Ho) as (d1 & E & Ho1 & Hc1).
  exists d1. split; [exact Ho1|]. split; [exact Hc1|]. unfold bind. rewrite E. reflexivity.
Qed.

Lemma open_reaches_scan respond d :
  is_open d = false ->
  exists d1, is_open d1 = true /\ _channels d1 = [] /\
    open_ respond d = iter (scan_channel respond) ADDRESSES d1.
Proof.
  intros Hc. unfold open_. rewrite Hc.
  unfold bind at 1. cbv [port_open].
  repeat (rewrite (bind_performs respond (exchange_global respond _) _ [_] tt _
                     (performs_exchange_global respond _)) by reflexivity).
  apply bind_clear_channels. reflexivity.
Qed.

(** X18: whatever the box answers, when [open] on a closed device returns,
    the port is open, the channel addresses are strictly ascending and lie
    in [1..32], and each channel object carries the address it is stored
    under; channels left from an earlier session are gone. *)
Theorem open_builds_sorted_channels respond d d' :
  is_open d = false -> open_ respond d = (Ok tt, d') ->
  is_open d' = true /\ StronglySorted Z.lt (channels d') /\
  (forall k, In k (channels d') -> 1 <= k <= 32) /\
  (forall kc, In kc (_channels d') -> channel (snd kc) = fst kc).
Proof.
  intros Hc E. destruct (open_reaches_scan respond d Hc) as (d1 & Ho1 & Hch1 & Hopen).
  rewrite Hopen in E.
  assert (Hs1 : StronglySorted Z.lt (map fst (_channels d1))) by (rewrite Hch1; constructor).
  assert (Hlt1 : forall k x, In k (map fst (_channels d1)) -> In x ADDRESSES -> k < x)
    by (rewrite Hch1; intros k x []).
  assert (Hc1 : forall kc, In kc (_channels d1) -> channel (snd kc) = fst kc)
    by (rewrite Hch1; intros kc []).
  destruct (scan_iter_sorted respond ADDRESSES d1 d' E Ho1 SSorted_ADDRESSES Hs1 Hlt1 Hc1)
    as (Ho' & Hs' & Hch' & Hk').
  unfold channels. split; [exact Ho'|]. split; [exact Hs'|]. split; [|exact Hch'].
  intros k Hk. destruct (Hk' k Hk) as [Hk2|Hk2]; [rewrite Hch1 in Hk2; destruct Hk2|].
  unfold ADDRESSES in Hk2. apply in_map_iff in Hk2 as (m & <- & Hm). apply in_seq in Hm. lia.
Qed.

(** Witness for X18: a box that answers every capability query with the
    query itself (no channel present). *)
Lemma open_builds_sorted_channels_witness :
  is_open (snd (open_ (fun b => b) (mkDevice false [] [] []))) = true /\
  StronglySorted Z.lt (channels (snd (open_ (fun b => b) (mkDevice false [] [] [])))) /\
  (forall k, In k (channels (snd (open_ (fun b => b) (mkDevice false [] [] [])))) -> 1 <= k <= 32) /\
  (forall kc, In kc (_channels (snd (open_ (fun b => b) (mkDevice false [] [] [])))) ->
     channel (snd kc) = fst kc).
Proof.
  apply (open_builds_sorted_channels (fun b => b) (mkDevice false [] [] [])
           (snd (open_ (fun b => b) (mkDevice false [] [] [])))).
  - reflexivity.
  - vm_compute. reflexivity.
Defined.

(** ** A short answer to a capability query *)

Lemma scan_channel_short_answer respond c d :
  is_open d = true -> is_byte c = true ->
  (List.length (respond (capability_request c)) < 2)%nat ->
  fst (scan_channel respond c d) = Raise IndexError.
Proof.
  destruct d as [o cs l ev]. intros Ho Hc Hlen. simpl in Ho. subst o.
  unfold scan_channel, bytearray. unfold capability_request at 1. simpl forallb. rewrite Hc.
  cbn [andb bind lift write read is_open log set_last_req last_req].
  unfold capability_request in *.
  destruct (respond _) as [|x [|y r]] eqn:Er; try reflexivity.
  simpl in Hlen. lia.
Qed.

(** X19: [open] reads the address byte of the answer to the first
    capability query ([response[1]]) without checking its length: a box
    that answers that query with fewer than two bytes makes [open] raise
    [IndexError]. *)
Theorem open_raises_on_short_capability_answer respond d :
  is_open d = false -> (List.length (respond (capability_request 1)) < 2)%nat ->
  fst (open_ respond d) = Raise IndexError.
Proof.
  intros Hc Hlen. destruct (open_reaches_scan respond d Hc) as (d1 & Ho1 & _ & Hopen).
  rewrite Hopen. change ADDRESSES with (1 :: tl ADDRESSES). cbn [iter]. unfold bind at 1.
  pose proof (scan_channel_short_answer respond 1 d1 Ho1 eq_refl Hlen) as H.
  destruct (scan_channel respond 1 d1) as [[u|e] d2]; simpl in H; [discriminate|].
  exact H.
Qed.

Lemma open_raises_on_short_capability_answer_witness :
  (List.length ((fun _ : bytes => [1]) (capability_request 1)) < 2)%nat /\
  fst (open_ (fun _ => [1]) (mkDevice false [] [] [])) = Raise IndexError.
Proof.
  split; [simpl; lia|].
  apply (open_raises_on_short_capability_answer (fun _ => [1]) (mkDevice false [] [] [])).
  - reflexivity.
  - simpl; lia.
Defined.

(** ** Channels without capabilities *)

Lemma lacks_of_land3 c caps :
  Z.land caps 3 = 0 -> lacks (mkChan c caps) 1 = true /\ lacks (mkChan c caps) 3 = true.
Proof.
  intros H. unfold lacks. simpl. rewrite H. split; [|reflexivity].
  apply Z.eqb_eq. change 1 with (Z.land 3 1). rewrite Z.land_assoc, H. reflexivity.
Qed.

(** X20: a channel whose capability code has neither bit 0 nor bit 1 set
    is built ([__init__]) and torn down ([__del__]) without any exchange
    with the box and without an exception: every step returns [False]
    at its capability check. *)
Theorem silent_channel_lifecycle respond c caps d :
  Z.land caps 3 = 0 ->
  chan_init respond c caps d = (Ok (mkChan c caps), d) /\
  chan_del respond (mkChan c caps) d = (Ok tt, d).
Proof.
  intros H. destruct (lacks_of_land3 c caps H) as [H1 H3].
  unfold chan_init, chan_del, detector_bias, dc_bias, bias, offset, flux, dac_setter,
    change_ac_flux_amplitude_by, ac_flux, test_in, reset_fll.
  rewrite H1, H3. split; reflexivity.
Qed.

Lemma silent_channel_lifecycle_witness :
  Z.land 4 3 = 0 /\
  chan_init ack 7 4 (mkDevice true [] [] []) = (Ok (mkChan 7 4), mkDevice true [] [] []) /\
  chan_del ack (mkChan 7 4) (mkDevice true [] [] []) = (Ok tt, mkDevice true [] [] []).
Proof.
  split; [reflexivity|]. apply (silent_channel_lifecycle ack 7 4 (mkDevice true [] [] [])).
  reflexivity.
Defined.

(** ** Which ports [list_devices] probes *)

Module ScannerFacts.
Import Scanner.

Lemma scan_ports_filter w v p ports s good :
  scan_ports w v p ports s good = scan_ports w v p (filter (selected v p) ports) s good.
Proof.
  revert s good. induction ports as [|q ps IH]; intros s good; [reflexivity|].
  cbn [scan_ports filter]. destruct (selected v p q) eqn:Hsel; cbn [scan_ports]; rewrite ?Hsel.
  - destruct (probe_bauds w (device_name q) BAUD_RATES s good) as [[g|e] s']; [apply IH|reflexivity].
  - apply IH.
Qed.

(** X21: [list_devices] never touches a port its vid/pid filter rejects:
    its outcome (result and final serial object) is that of the scan of
    the selected ports alone. *)
Theorem list_devices_only_selected w v p ports :
  list_devices w v p ports = list_devices w v p (filter (selected v p) ports).
Proof. unfold list_devices. apply scan_ports_filter. Qed.

Definition answers_probe (w : world) (port : string) (baud : Z) : bool :=
  match read_outcome w port baud with Ok r => bytes_eqb r PROBE | Raise _ => false end.

Section Friendly.
Variable w : world.
Hypothesis Hopen : forall port b, open_outcome w port b = None.
Hypothesis Hwrite : forall port b, write_outcome w port b = None.
Hypothesis Hread : forall port b e, read_outcome w port b = Raise e -> caught e = true.

Lemma probe_friendly port b s good :
  s_open s = false ->
  probe w port b s good =
    (Ok (if answers_probe w port b then good ++ [(port, b)] else good), mkSerial false port b).
Proof.
  intros Hs. unfold probe, s_open_port. simpl. rewrite Hs, Hopen. simpl.
  unfold s_write. simpl. rewrite Hwrite. unfold s_read, answers_probe. simpl.
  destruct (read_outcome w port b) as [r|e] eqn:E; [reflexivity|].
  rewrite (Hread _ _ _ E). reflexivity.
Qed.

Lemma probe_bauds_friendly port bauds s good :
  s_open s = false ->
  exists s', s_open s' = false /\
    probe_bauds w port bauds s good =
      (Ok (good ++ map (fun b => (port, b)) (filter (answers_probe w port) bauds)), s').
Proof.
  revert s good. induction bauds as [|b bs IH]; intros s good Hs.
  - exists s. rewrite app_nil_r. split; [exact Hs | reflexivity].
  - cbn [probe_bauds filter]. rewrite (probe_friendly port b s good Hs).
    destruct (answers_probe w port b) eqn:Ha.
    + destruct (IH (mkSerial false port b) (good ++ [(port, b)]) eq_refl) as (s' & Hs' & E).
      exists s'. split; [exact Hs'|]. rewrite E, <- app_assoc. reflexivity.
    + destruct (IH (mkSerial false port b) good eq_refl) as (s' & Hs' & E).
      exists s'. split; [exact Hs'|]. exact E.
Qed.

Lemma scan_ports_friendly v p ports s good :
  s_open s = false ->
  exists s', s_open s' = false /\
    scan_ports w v p ports s good =
      (Ok (good ++ flat_map (fun q => map (fun b => (device_name q, b))
                                       (filter (answers_probe w (device_name q)) BAUD_RATES))
                            (filter (selected v p) ports)), s').
Proof.
  revert s good. induction ports as [|q ps IH]; intros s good Hs.
  - exists s. rewrite app_nil_r. split; [exact Hs | reflexivity].
  - cbn [scan_ports filter]. destruct (selected v p q) eqn:Hsel; cbn [scan_ports flat_map]; rewrite ?Hsel.
    + destruct (probe_bauds_friendly (device_name q) BAUD_RATES s good Hs) as (s1 & Hs1 & E1).
      rewrite E1.
      destruct (IH s1 (good ++ map (fun b => (device_name q, b))
                                  (filter (answers_probe w (device_name q)) BAUD_RATES)) Hs1)
        as (s' & Hs' & E).
      exists s'.
      split; [exact Hs'|]. rewrite E, app_assoc. reflexivity.
    + apply IH, Hs.
Qed.

End Friendly.

(** X22: when every port opens and takes the probe, and every failed read
    is a caught [PortNotOpenError] or [TimeoutError], [list_devices]
    returns, for each selected port in the given order, the baud rates of
    [BAUD_RATES] (in that order) at which the read gave back exactly the
    probe frame, and leaves its serial object closed. *)
Theorem list_devices_friendly_world w v p ports :
  (forall port b, open_outcome w port b = None) ->
  (forall port b, write_outcome w port b = None) ->
  (forall port b e, read_outcome w port b = Raise e -> caught e = true) ->
  fst (list_devices w v p ports) =
    Ok (flat_map (fun q => map (fun b => (device_name q, b))
                             (filter (answers_probe w (device_name q)) BAUD_RATES))
                 (filter (selected v p) ports)) /\
  s_open (snd (list_devices w v p ports)) = false.
Proof.
  intros Ho Hw Hr. unfold list_devices.
  destruct (scan_ports_friendly w Ho Hw Hr v p ports (mkSerial false EmptyString 9600) [] eq_refl)
    as (s' & Hs' & E).
  rewrite E. split; [reflexivity | exact Hs'].
Qed.

Definition calm_world : world :=
  mkWorld (fun _ _ => None) (fun _ _ => None)
    (fun port baud => if String.eqb port "squid" && (baud =? 38400) then Ok PROBE
                      else Raise TimeoutError).

Lemma list_devices_friendly_world_witness :
  fst (list_devices calm_world (Some 1027) None
         [mkPort "squid" (Some 1027) None; mkPort "modem" (Some 9) None;
          mkPort "other" (Some 1027) None]) =
    Ok [("squid"%string, 38400)] /\
  s_open (snd (list_devices calm_world (Some 1027) None
         [mkPort "squid" (Some 1027) None; mkPort "modem" (Some 9) None;
          mkPort "other" (Some 1027) None])) = false.
Proof.
  apply (list_devices_friendly_world calm_world (Some 1027) None
           [mkPort "squid" (Some 1027) None; mkPort "modem" (Some 9) None;
            mkPort "other" (Some 1027) None]).
  - intros port b. reflexivity.
  - intros port b. reflexivity.
  - intros port b e H. simpl in H.
    destruct (String.eqb port "squid" && (b =? 38400)); inversion H; reflexivity.
Defined.

End ScannerFacts.

(** ** Witnesses of the codec and exchange properties *)

Ltac qdec := vm_compute; first [reflexivity | intros ?Hq; discriminate Hq | lia].





Lemma map_monotone_witness :
  (0 <= 1)%Q /\ _map 0 V_MIN V_MAX = Ok [128; 0] /\ _map 1 V_MIN V_MAX = Ok [179; 50] /\
  from_bytes_big [128; 0] <= from_bytes_big [179; 50].
Proof.
  split; [qdec|]. split; [vm_compute; reflexivity|]. split; [vm_compute; reflexivity|].
  apply (map_monotone V_MIN V_MAX 0 1 [128; 0] [179; 50]); [qdec | vm_compute; reflexivity ..].
Defined.


Lemma firmware_and_number_exchange_witness :
  firmware ack (mkChan 5 1) (mkDevice true [] [] []) =
    (if acked ack [5; 64; 0; 242] then Ok 242 else Raise ConnectionError,
     mkDevice true [] [5; 64; 0; 242] ([] ++ exch ack [5; 64; 0; 242])) /\
  number ack (mkChan 5 1) (mkDevice true [] [] []) =
    (if acked ack [5; 64; 0; 250] then Ok 250 else Raise ConnectionError,
     mkDevice true [] [5; 64; 0; 250] ([] ++ exch ack [5; 64; 0; 250])).
Proof.
  apply (firmware_and_number_exchange ack (mkChan 5 1) (mkDevice true [] [] []));
    simpl; first [lia | reflexivity].
Defined.

Lemma creation_date_exchange_witness :
  channel_creation_date ack (mkChan 5 1) (mkDevice true [] [] []) =
    if acked ack [5; 64; 0; 244] then
      (if acked ack [5; 64; 0; 246] then Ok (Z.lor (Z.shiftl 244 16) 246)
       else Raise ConnectionError,
       mkDevice true [] [5; 64; 0; 246]
                ([] ++ exch ack [5; 64; 0; 244] ++ exch ack [5; 64; 0; 246]))
    else
      (Raise ConnectionError,
       mkDevice true [] [5; 64; 0; 244] ([] ++ exch ack [5; 64; 0; 244])).
Proof.
  apply (creation_date_exchange ack (mkChan 5 1) (mkDevice true [] [] []));
    simpl; first [lia | reflexivity].
Defined.

Lemma heat_squid_behaviour_witness :
  performs ack (heat_squid ack (mkChan 5 1) 1000) [[5; 50; 1000 / 256; 1000 mod 256]]
    (acked ack [5; 50; 1000 / 256; 1000 mod 256]) /\
  heat_squid ack (mkChan 5 1) 70000 (mkDevice true [] [] []) =
    (Raise ValueError, mkDevice true [] [] []).
Proof.
  destruct (heat_squid_behaviour ack (mkChan 5 1) 1000) as [H _]; [simpl; lia | reflexivity |].
  destruct (heat_squid_behaviour ack (mkChan 5 1) 70000) as [_ H']; [simpl; lia | reflexivity |].
  split; [apply H; lia | apply H'; lia].
Defined.

Lemma change_amplitude_behaviour_witness :
  performs ack (change_ac_flux_amplitude_by ack (mkChan 5 1) (-12))
    [[5; 96; ((-12) mod 65536) / 256; (-12) mod 256]]
    (acked ack [5; 96; ((-12) mod 65536) / 256; (-12) mod 256]) /\
  (((-12) mod 65536) / 256) * 256 + (-12) mod 256 = (if -12 <? 0 then -12 + 65536 else -12).
Proof.
  destruct (change_amplitude_behaviour ack (mkChan 5 1) (-12)) as (_ & _ & H);
    [simpl; lia | reflexivity |].
  apply H; lia.
Defined.

Lemma dac_setters_range_witness :
  exists b0 b1, _map 1 V_MIN V_MAX = Ok [b0; b1] /\
    performs ack (dac_setter ack BIAS (mkChan 5 1) 1)
      [[5; 8 + dac_value BIAS; b0; b1]] (acked ack [5; 8 + dac_value BIAS; b0; b1]).
Proof.
  destruct (dac_setters_range ack BIAS (mkChan 5 1) 1 0) as (_ & H & _);
    [simpl; lia | reflexivity |].
  apply H; qdec.
Defined.

Lemma autotune_rejects_bias_midway_witness :
  raises_after ack (auto_tune_squid ack (mkChan 5 1) 3 0)
    (firstn 6 (autotune_frames 5 [] [])) ValueError /\
  raises_after ack (auto_tune_squid ack (mkChan 5 1) 0 (-3))
    (firstn 8 (autotune_frames 5 (encode_bias 0) [])) ValueError.
Proof.
  split.
  - destruct (autotune_rejects_bias_midway ack (mkChan 5 1) 3 0) as [H _];
      [simpl; lia | reflexivity |].
    apply H. intros [_ Hq]. vm_compute in Hq. apply Hq. reflexivity.
  - destruct (autotune_rejects_bias_midway ack (mkChan 5 1) 0 (-3)) as [_ H];
      [simpl; lia | reflexivity |].
    apply H; [qdec | qdec | intros [Hq _]; vm_compute in Hq; apply Hq; reflexivity].
Defined.
